(** * NASA SSD/CNEOS API Explorer: a shallow embedding of [app.py]

    The development follows the source file top-down:
    - [Py]: the Python values that flow through the program (JSON
      payloads, query parameters, column labels) and the pieces of the
      language runtime the code relies on ([bool()], [==] on dictionary
      keys, iteration, [str.strip], [float(str)], [repr(str)]);
    - [Eff]: a small writer/exception monad for logging, HTTP requests and
      [try]/[except];
    - [Pandas]: the part of [pandas.DataFrame] the code uses;
    - [App]: class [NasaSsdCneosApi] and the two Gradio callbacks;
    - the properties of the specification, one section per component.

    Strings are sequences of characters with code points below 256; every
    [ascii] stands for one character. *)

From Stdlib Require Import ZArith List String Ascii Bool Lia.
From Stdlib Require Import Floats.SpecFloat.
Import ListNotations.

Set Warnings "-register-all".

Local Open Scope string_scope.
Local Open Scope Z_scope.

(* ===================================================================== *)
(** * Python values and runtime *)
(* ===================================================================== *)

Module Py.

(** Values produced by [json.loads] and values stored in the [params]
    dictionaries. A float is a binary64 value in the representation of
    [SpecFloat]; a dict keeps its keys in insertion order. *)
Inductive pyval : Type :=
| VNone
| VBool (b : bool)
| VInt (n : Z)
| VFloat (f : spec_float)
| VStr (s : string)
| VList (l : list pyval)
| VDict (d : list (string * pyval)).

(** A dictionary whose keys are strings: JSON objects and [params]. The
    keys of a dictionary are distinct; of a list that repeats a key only
    the first entry is ever looked up. *)
Definition sdict := list (string * pyval).

(** [bool(v)]: the truth value used by [if v] and [not v]. *)
Definition truthy (v : pyval) : bool :=
  match v with
  | VNone => false
  | VBool b => b
  | VInt n => negb (n =? 0)
  | VFloat (S754_zero _) => false
  | VFloat _ => true
  | VStr s => negb (String.eqb s EmptyString)
  | VList l => match l with [] => false | _ => true end
  | VDict d => match d with [] => false | _ => true end
  end.

(** [isinstance(v, dict)] *)
Definition is_dict (v : pyval) : bool :=
  match v with VDict _ => true | _ => false end.

(** [v is not None] *)
Definition is_not_None (v : pyval) : bool :=
  match v with VNone => false | _ => true end.

(** [v != '']: only the empty string equals the empty string. *)
Definition ne_empty_str (v : pyval) : bool :=
  match v with VStr s => negb (String.eqb s EmptyString) | _ => true end.

(** ** Dictionaries with string keys *)

(** [k in d] *)
Definition sdict_mem (k : string) (d : sdict) : bool :=
  existsb (fun kv => String.eqb (fst kv) k) d.

(** [d.get(k, default)] *)
Fixpoint sdict_get (d : sdict) (k : string) (default : pyval) : pyval :=
  match d with
  | [] => default
  | (k', v) :: d' => if String.eqb k' k then v else sdict_get d' k default
  end.

(** ** Hashing and equality of dictionary keys *)

(** [hash(v)] succeeds on scalars and raises [TypeError] on lists and
    dicts. *)
Definition hashable (v : pyval) : bool :=
  match v with VList _ | VDict _ => false | _ => true end.

(** The integer a finite float denotes, when it denotes one. *)
Definition float_to_Z (f : spec_float) : option Z :=
  match f with
  | S754_zero _ => Some 0
  | S754_finite s m e =>
      let z := if s then Z.neg m else Z.pos m in
      if 0 <=? e then Some (z * 2 ^ e)
      else if (Z.pos m) mod 2 ^ (- e) =? 0 then Some (z / 2 ^ (- e))
      else None
  | _ => None
  end.

(** [x == y] on floats: zeros of both signs are equal, NaN equals
    nothing. *)
Definition float_eqb (x y : spec_float) : bool := SFeqb x y.

(** [x == y] on the scalars that can be dictionary keys. [True == 1] and
    [1 == 1.0] hold; a string or [None] equals only itself. Python finds
    a key by identity before it tries [==], which shows only for NaN;
    identity is not part of the model, so the results below are stated for
    string keys. *)
Definition key_eqb (x y : pyval) : bool :=
  let num v :=
    match v with
    | VBool b => Some (inl (if b then 1 else 0))
    | VInt n => Some (inl n)
    | VFloat f => Some (inr f)
    | _ => None
    end in
  match x, y with
  | VNone, VNone => true
  | VStr s, VStr t => String.eqb s t
  | _, _ =>
      match num x, num y with
      | Some (inl a), Some (inl b) => a =? b
      | Some (inr f), Some (inr g) => float_eqb f g
      | Some (inl a), Some (inr g) =>
          match float_to_Z g with Some b => a =? b | None => false end
      | Some (inr f), Some (inl b) =>
          match float_to_Z f with Some a => a =? b | None => false end
      | _, _ => false
      end
  end.

(** ** Characters and strings *)

(** [str.isspace] on one character (code points below 256). *)
Definition is_space (c : ascii) : bool :=
  let n := Z.of_nat (nat_of_ascii c) in
  ((9 <=? n) && (n <=? 13)) || ((28 <=? n) && (n <=? 32))
  || (n =? 133) || (n =? 160).

Fixpoint lstrip (s : string) : string :=
  match s with
  | String c s' => if is_space c then lstrip s' else s
  | EmptyString => EmptyString
  end.

Fixpoint rstrip (s : string) : string :=
  match s with
  | EmptyString => EmptyString
  | String c s' =>
      match rstrip s' with
      | EmptyString => if is_space c then EmptyString else String c EmptyString
      | r => String c r
      end
  end.

(** [s.strip()] *)
Definition strip (s : string) : string := rstrip (lstrip s).

(** The characters of a string, each as a one-character string: what
    iterating over a [str] yields. *)
Fixpoint chars (s : string) : list pyval :=
  match s with
  | EmptyString => []
  | String c s' => VStr (String c EmptyString) :: chars s'
  end.

(** ** [repr(str)] *)

Definition hex_digit (n : Z) : ascii :=
  ascii_of_nat (Z.to_nat (if n <? 10 then 48 + n else 87 + n)).

(** [str.isprintable] on one character (code points below 256). *)
Definition is_printable (c : ascii) : bool :=
  let n := Z.of_nat (nat_of_ascii c) in
  ((32 <=? n) && (n <=? 126)) || ((161 <=? n) && negb (n =? 173)).

Fixpoint contains_char (q : ascii) (s : string) : bool :=
  match s with
  | EmptyString => false
  | String c s' => Ascii.eqb c q || contains_char q s'
  end.

Definition repr_char (quote c : ascii) : string :=
  let n := Z.of_nat (nat_of_ascii c) in
  if Ascii.eqb c quote || Ascii.eqb c "\"%char then String "\"%char (String c EmptyString)
  else if n =? 9 then "\t"
  else if n =? 10 then "\n"
  else if n =? 13 then "\r"
  else if is_printable c then String c EmptyString
  else String "\"%char (String "x"%char
         (String (hex_digit (n / 16)) (String (hex_digit (n mod 16)) EmptyString))).

Fixpoint repr_body (quote : ascii) (s : string) : string :=
  match s with
  | EmptyString => EmptyString
  | String c s' => repr_char quote c ++ repr_body quote s'
  end.

(** The double quote character. *)
Definition dquote : ascii := ascii_of_nat 34.

(** [repr(s)]: single quotes, unless the string holds a single quote and
    no double quote. *)
Definition repr (s : string) : string :=
  let quote :=
    if contains_char "'"%char s && negb (contains_char dquote s)
    then dquote else "'"%char in
  String quote (repr_body quote s ++ String quote EmptyString).

(** ** [float(str)] *)

Definition is_digit (c : ascii) : bool :=
  let n := Z.of_nat (nat_of_ascii c) in (48 <=? n) && (n <=? 57).

Definition digit_val (c : ascii) : Z := Z.of_nat (nat_of_ascii c) - 48.

Definition is_underscore (c : ascii) : bool := Ascii.eqb c "_"%char.

(** ASCII lower case of a character. *)
Definition to_lower (c : ascii) : ascii :=
  let n := nat_of_ascii c in
  if (65 <=? n)%nat && (n <=? 90)%nat then ascii_of_nat (n + 32) else c.

(** Underscores may only stand between two digits; they are removed
    before the number is read. [prev] is the character before [s]. *)
Fixpoint drop_underscores (prev : ascii) (s : string) : option string :=
  match s with
  | EmptyString => if is_underscore prev then None else Some EmptyString
  | String c s' =>
      if is_underscore c then
        if is_digit prev then drop_underscores c s' else None
      else if is_underscore prev && negb (is_digit c) then None
      else option_map (String c) (drop_underscores c s')
  end.

(** The longest prefix of digits and the rest. *)
Fixpoint take_digits (s : string) : string * string :=
  match s with
  | String c s' =>
      if is_digit c then let (d, r) := take_digits s' in (String c d, r)
      else (EmptyString, s)
  | EmptyString => (EmptyString, EmptyString)
  end.

Fixpoint digits_val_from (acc : Z) (s : string) : Z :=
  match s with
  | EmptyString => acc
  | String c s' => digits_val_from (10 * acc + digit_val c) s'
  end.

Definition digits_val (s : string) : Z := digits_val_from 0 s.

Definition parse_sign (s : string) : bool * string :=
  match s with
  | String c r =>
      if Ascii.eqb c "-"%char then (true, r)
      else if Ascii.eqb c "+"%char then (false, r)
      else (false, s)
  | EmptyString => (false, s)
  end.

(** The binary64 nearest to [(-1)^neg * m * 10^e] (ties to even,
    overflow to infinity). *)
Definition decimal_to_float (neg : bool) (m e : Z) : spec_float :=
  match m with
  | Z.pos p =>
      let num := if 0 <=? e then Z.to_pos (Z.pos p * 10 ^ e) else p in
      let den := if 0 <=? e then 1%positive else Z.to_pos (10 ^ (- e)) in
      SFdiv 53 1024 (S754_finite neg num 0) (S754_finite false den 0)
  | _ => S754_zero neg
  end.

(** A decimal number at the start of [s]: sign, digits, point, digits
    (at least one digit in all), and an exponent when its digits are
    there. The result is the value and the unread rest. *)
Definition parse_decimal (s : string) : option (spec_float * string) :=
  let (neg, s1) := parse_sign s in
  let (ip, s2) := take_digits s1 in
  let (fp, s3) :=
    match s2 with
    | String c r => if Ascii.eqb c "."%char then take_digits r
                    else (EmptyString, s2)
    | EmptyString => (EmptyString, s2)
    end in
  if String.eqb (ip ++ fp) EmptyString then None
  else
    let (ex, s4) :=
      match s3 with
      | String c r =>
          if Ascii.eqb (to_lower c) "e"%char then
            let (eneg, r1) := parse_sign r in
            let (ed, r2) := take_digits r1 in
            if String.eqb ed EmptyString then (0, s3)
            else ((if eneg then - digits_val ed else digits_val ed), r2)
          else (0, s3)
      | EmptyString => (0, s3)
      end in
    Some (decimal_to_float neg (digits_val (ip ++ fp))
            (ex - Z.of_nat (String.length fp)), s4).

(** [t], compared without case, is a prefix of [s]: the rest of [s]. *)
Fixpoint match_nocase (t s : string) : option string :=
  match t, s with
  | EmptyString, _ => Some s
  | String a t', String c s' =>
      if Ascii.eqb (to_lower c) a then match_nocase t' s' else None
  | String _ _, EmptyString => None
  end.

(** [inf], [infinity] or [nan] with an optional sign. *)
Definition parse_inf_or_nan (s : string) : option (spec_float * string) :=
  let (neg, s1) := parse_sign s in
  match match_nocase "inf" s1 with
  | Some r =>
      match match_nocase "inity" r with
      | Some r' => Some (S754_infinity neg, r')
      | None => Some (S754_infinity neg, r)
      end
  | None =>
      match match_nocase "nan" s1 with
      | Some r => Some (S754_nan, r)
      | None => None
      end
  end.

Definition string_to_double (s : string) : option (spec_float * string) :=
  match parse_decimal s with
  | Some r => Some r
  | None => parse_inf_or_nan s
  end.

Definition float_error : string := "could not convert string to float: ".

(** White space as [float] sees it once the text is in ASCII. *)
Definition is_c_space (c : ascii) : bool :=
  let n := Z.of_nat (nat_of_ascii c) in
  ((9 <=? n) && (n <=? 13)) || (n =? 32).

(** Before [float] reads a string, every character above 127 becomes a
    blank when it is white space, and a question mark otherwise (no such
    character below 256 is a decimal digit). *)
Definition to_ascii (c : ascii) : ascii :=
  let n := Z.of_nat (nat_of_ascii c) in
  if n <? 128 then c
  else if (n =? 133) || (n =? 160) then " "%char
  else "?"%char.

Fixpoint transform (s : string) : string :=
  match s with
  | EmptyString => EmptyString
  | String c s' => String (to_ascii c) (transform s')
  end.

Fixpoint lstrip_c (s : string) : string :=
  match s with
  | String c s' => if is_c_space c then lstrip_c s' else s
  | EmptyString => EmptyString
  end.

Fixpoint rstrip_c (s : string) : string :=
  match s with
  | EmptyString => EmptyString
  | String c s' =>
      match rstrip_c s' with
      | EmptyString => if is_c_space c then EmptyString else String c EmptyString
      | r => String c r
      end
  end.

(** [float(obj)] for a string [obj]: [inr x] is the float, [inl msg] is
    [ValueError(msg)]. Underscores are taken out, white space at both ends
    is stripped, and the rest must be a number and nothing more. The error
    shows the string as it was given. *)
Definition py_float (obj : string) : string + spec_float :=
  match drop_underscores zero (transform obj) with
  | None => inl (float_error ++ repr obj)
  | Some s =>
      match string_to_double (rstrip_c (lstrip_c s)) with
      | Some (x, EmptyString) => inr x
      | _ => inl (float_error ++ repr obj)
      end
  end.

End Py.

(* ===================================================================== *)
(** * Effects: logging, HTTP, exceptions *)
(* ===================================================================== *)

Module Eff.
Import Py.

(** What [requests.get] hands back: the status code, the body as text, and
    what [response.json()] makes of the body ([None]: the body is not
    valid JSON and [JSONDecodeError] is raised). *)
Record Response : Type := mkResponse {
  status_code : Z;
  text : string;
  json : option pyval
}.

(** The ways [requests.get] itself fails: no response object exists. *)
Inductive net_failure : Type := ConnectionError | Timeout | OtherRequestError.

(** The exceptions that occur in the program. All are subclasses of
    [Exception]. *)
Inductive exn : Type :=
| HTTPError (r : Response)          (* raised by [raise_for_status] *)
| JSONDecodeError (r : Response)    (* raised by [response.json()] *)
| RequestException (f : net_failure)
| ValueError (msg : string)
| TypeError
| AttributeError
| IndexError
| PlotError.                        (* anything raised inside plotly *)

(** The pieces of an f-string: literal or interpolated text, a formatted
    value, a formatted exception. *)
Inductive piece : Type :=
| FText (s : string)
| FVal (v : pyval)
| FExn (e : exn).

Inductive level : Type := DEBUG | INFO | WARNING | ERROR.

(** The observable actions, in the order they happen. *)
Inductive event : Type :=
| Log (lvl : level) (msg : list piece)      (* a call of [logger.<lvl>] *)
| HttpGet (url : string) (params : sdict)   (* [requests.get(url, params)] *)
| PrintExc (e : exn).                       (* [traceback.print_exc()] *)

Inductive res (A : Type) : Type :=
| Ok (a : A)
| Raise (e : exn).
Arguments Ok {A} a.
Arguments Raise {A} e.

(** A computation: its outcome and the actions it performed. *)
Definition M (A : Type) : Type := (res A * list event)%type.

Definition ret {A} (a : A) : M A := (Ok a, []).

Definition bind {A B} (m : M A) (f : A -> M B) : M B :=
  match m with
  | (Ok a, t) => let (r, t') := f a in (r, (t ++ t')%list)
  | (Raise e, t) => (Raise e, t)
  end.

Definition raise {A} (e : exn) : M A := (Raise e, []).

Definition emit (ev : event) : M unit := (Ok tt, [ev]).

Definition log (lvl : level) (msg : list piece) : M unit := emit (Log lvl msg).

(** [try: body  except Exception as e: handler e]. A handler that does not
    apply to [e] re-raises it. *)
Definition try_except {A} (body : M A) (handler : exn -> M A) : M A :=
  match body with
  | (Ok a, t) => (Ok a, t)
  | (Raise e, t) => let (r, t') := handler e in (r, (t ++ t')%list)
  end.

Definition when (b : bool) (m : M unit) : M unit := if b then m else ret tt.

(** Lifting of a pure step that may raise. *)
Definition lift {A} (r : res A) : M A := (r, []).

Definition outcome {A} (m : M A) : res A := fst m.
Definition trace {A} (m : M A) : list event := snd m.

(** The requests sent during a run. *)
Definition requests_of (t : list event) : list (string * sdict) :=
  flat_map (fun ev => match ev with HttpGet u p => [(u, p)] | _ => [] end) t.

End Eff.

Declare Scope eff_scope.
Delimit Scope eff_scope with eff.
Notation "x <- m ;; k" := (Eff.bind m (fun x => k))
  (at level 61, m at next level, right associativity) : eff_scope.
Notation "m ;; k" := (Eff.bind m (fun _ => k))
  (at level 61, right associativity) : eff_scope.

(* ===================================================================== *)
(** * The part of pandas the program uses *)
(* ===================================================================== *)

Module Pandas.
Import Py Eff.

(** Column labels are the keys of the row dictionaries: hashable values. *)
Definition label := pyval.

(** A Python dict with arbitrary hashable keys, in insertion order. *)
Definition pydict := list (label * pyval).

(** [d[k] = v]: an existing key keeps its place and its key object. *)
Fixpoint dict_set (d : pydict) (k : label) (v : pyval) : pydict :=
  match d with
  | [] => [(k, v)]
  | (k', v') :: d' =>
      if key_eqb k' k then (k', v) :: d' else (k', v') :: dict_set d' k v
  end.

(** [d.get(k)], with [None] for a missing key. *)
Fixpoint dict_get (d : pydict) (k : label) : option pyval :=
  match d with
  | [] => None
  | (k', v) :: d' => if key_eqb k' k then Some v else dict_get d' k
  end.

(** [iter(v)]: lists yield their elements, strings their characters,
    dicts their keys; anything else raises [TypeError]. *)
Definition py_iter (v : pyval) : res (list pyval) :=
  match v with
  | VList l => Ok l
  | VStr s => Ok (chars s)
  | VDict d => Ok (map (fun kv => VStr (fst kv)) d)
  | _ => Raise TypeError
  end.

(** [dict(pairs)], continuing from [acc]: inserting an unhashable key
    raises [TypeError]. *)
Fixpoint dict_of_pairs (ps : list (pyval * pyval)) (acc : pydict) : res pydict :=
  match ps with
  | [] => Ok acc
  | (k, v) :: ps' =>
      if hashable k then dict_of_pairs ps' (dict_set acc k v)
      else Raise TypeError
  end.

(** [dict(zip(fields, row))]: [zip] stops at the shorter argument. *)
Definition dict_zip (fields row : pyval) : res pydict :=
  match py_iter fields with
  | Raise e => Raise e
  | Ok fs =>
      match py_iter row with
      | Raise e => Raise e
      | Ok vs => dict_of_pairs (combine fs vs) []
      end
  end.

(** [[dict(zip(fields, row)) for row in rows]] *)
Fixpoint dict_zip_all (fields : pyval) (rows : list pyval) : res (list pydict) :=
  match rows with
  | [] => Ok []
  | row :: rows' =>
      match dict_zip fields row with
      | Raise e => Raise e
      | Ok d =>
          match dict_zip_all fields rows' with
          | Raise e => Raise e
          | Ok ds => Ok (d :: ds)
          end
      end
  end.

(** A table: the column labels in order, and one list of cells per row,
    aligned with the columns. A cell is [None] where the row's dictionary
    has no such key (pandas fills it with NaN). Cells keep the values as
    received; the dtype conversion of pandas is not part of the model. *)
Record DataFrame : Type := mkDataFrame {
  columns : list label;
  rows : list (list (option pyval))
}.

Definition label_mem (k : label) (cols : list label) : bool :=
  existsb (fun c => key_eqb c k) cols.

(** The keys of [d] that are new, appended to [cols]. *)
Definition add_keys (cols : list label) (d : pydict) : list label :=
  fold_left (fun acc kv => if label_mem (fst kv) acc then acc else (acc ++ [fst kv])%list)
            d cols.

(** The union of the keys of the dictionaries, in order of first
    appearance. *)
Definition union_keys (ds : list pydict) : list label :=
  fold_left add_keys ds [].

(** [pd.DataFrame(records)] for a list of dictionaries. *)
Definition DataFrame_of_records (ds : list pydict) : DataFrame :=
  let cols := union_keys ds in
  mkDataFrame cols (map (fun d => map (dict_get d) cols) ds).

(** [df.empty]: no row or no column. *)
Definition empty (df : DataFrame) : bool :=
  match columns df, rows df with
  | [], _ | _, [] => true
  | _, _ => false
  end.

(** [len(df)] *)
Definition len (df : DataFrame) : nat := List.length (rows df).

(** [name in df.columns] for a string [name]. *)
Definition has_column (name : string) (df : DataFrame) : bool :=
  label_mem (VStr name) (columns df).

(** [df.columns[i]]; [IndexError] when out of range. *)
Definition column_at (df : DataFrame) (i : nat) : res label :=
  match nth_error (columns df) i with
  | Some c => Ok c
  | None => Raise IndexError
  end.

(** The new label of [c] under a [columns=] mapper with string keys. *)
Fixpoint rename_label (mapper : list (string * string)) (c : label) : label :=
  match mapper with
  | [] => c
  | (k, v) :: mapper' =>
      if key_eqb (VStr k) c then VStr v else rename_label mapper' c
  end.

(** [df.rename(columns=mapper)]: labels that are keys of the mapper are
    replaced, the others and all cells stay. *)
Definition rename (mapper : list (string * string)) (df : DataFrame) : DataFrame :=
  mkDataFrame (map (rename_label mapper) (columns df)) (rows df).

End Pandas.

(* ===================================================================== *)
(** * The application *)
(* ===================================================================== *)

Module App.
Import Py Eff Pandas.
Local Open Scope eff_scope.

(** ** The outside world *)

(** The keyword arguments the program hands to plotly express. *)
Inductive ChartSpec : Type :=
| ScatterGeo (lat lon : label) (size hover_name : option label)
             (projection title : string)
| Scatter (x y : label) (hover_name size color : option label)
          (title : string).

(** A figure: the table it draws and how. *)
Record Figure : Type := mkFigure {
  fig_data : DataFrame;
  fig_spec : ChartSpec
}.

(** The two collaborators outside the program: the HTTP server behind
    [requests.get], and plotly, which either builds the figure it is asked
    for or raises. *)
Record world : Type := mkWorld {
  http : string -> sdict -> net_failure + Response;
  plotly_accepts : Figure -> bool
}.

Definition requests_get (w : world) (url : string) (params : sdict) : M Response :=
  emit (HttpGet url params) ;;
  match http w url params with
  | inl f => raise (RequestException f)
  | inr r => ret r
  end.

(** [response.raise_for_status()]: [HTTPError] for 4xx and 5xx. *)
Definition raise_for_status (r : Response) : M unit :=
  if (400 <=? status_code r) && (status_code r <? 600)
  then raise (HTTPError r) else ret tt.

(** [response.json()] *)
Definition response_json (r : Response) : M pyval :=
  match json r with
  | Some v => ret v
  | None => raise (JSONDecodeError r)
  end.

(** [px.scatter_geo(df, ...)] and [px.scatter(df, ...)] *)
Definition px (w : world) (df : DataFrame) (spec : ChartSpec) : M Figure :=
  let fig := mkFigure df spec in
  if plotly_accepts w fig then ret fig else raise PlotError.

(** [data.get(key, default)]: [AttributeError] unless [data] is a dict. *)
Definition method_get (data : pyval) (key : string) (default : pyval) : M pyval :=
  match data with
  | VDict d => ret (sdict_get d key default)
  | _ => raise AttributeError
  end.

(** [data.keys()] *)
Definition method_keys (data : pyval) : M pyval :=
  match data with
  | VDict d => ret (VList (map (fun kv => VStr (fst kv)) d))
  | _ => raise AttributeError
  end.

(** [key in data] for a dict [data] *)
Definition dict_has (key : string) (data : pyval) : bool :=
  match data with
  | VDict d => sdict_mem key d
  | _ => false
  end.

(** [data[key]] for a dict [data] that has the key *)
Definition dict_item (data : pyval) (key : string) : pyval :=
  match data with
  | VDict d => sdict_get d key VNone
  | _ => VNone
  end.

(** [params[key] = v] *)
Fixpoint sdict_set (d : sdict) (key : string) (v : pyval) : sdict :=
  match d with
  | [] => [(key, v)]
  | (k', v') :: d' =>
      if String.eqb k' key then (k', v) :: d' else (k', v') :: sdict_set d' key v
  end.

(** ** class NasaSsdCneosApi *)

Record NasaSsdCneosApi : Type := mkApi {
  fireball_url : string;
  ca_url : string;
  debug_mode : bool
}.

(** [__init__] *)
Definition NasaSsdCneosApi_init : NasaSsdCneosApi :=
  {| fireball_url := "https://ssd-api.jpl.nasa.gov/fireball.api";
     ca_url := "https://ssd-api.jpl.nasa.gov/cad.api";
     debug_mode := true |}.

(** The dict comprehension of [_make_api_request]:
    [{k: v for k, v in params.items() if v is not None and v != ''}] *)
Definition clean (params : sdict) : sdict :=
  filter (fun kv => is_not_None (snd kv) && ne_empty_str (snd kv)) params.

(** [response.text[:500]] *)
Definition preview (r : Response) : string := substring 0 500 (text r).

Definition _make_api_request (w : world) (self : NasaSsdCneosApi)
    (url : string) (params : sdict) (name : string) : M pyval :=
  try_except
    (let clean_params := clean params in
     when (debug_mode self)
       (log INFO [FText name; FText " Request - URL: "; FText url] ;;
        log INFO [FText name; FText " Request - Params: ";
                  FVal (VDict clean_params)]) ;;
     response <- requests_get w url clean_params ;;
     when (debug_mode self)
       (log INFO [FText name; FText " Response - Status: ";
                  FVal (VInt (status_code response))] ;;
        log INFO [FText name; FText " Response - Content Preview: ";
                  FText (preview response); FText "..."]) ;;
     raise_for_status response ;;
     data <- response_json response ;;
     if is_dict data && dict_has "error" data then
       log ERROR [FText name; FText " API Error: ";
                  FVal (dict_item data "error")] ;;
       ret VNone
     else ret data)
    (fun e =>
       match e with
       | HTTPError r =>
           log ERROR [FText name; FText " HTTP Error: "; FExn e] ;;
           when (debug_mode self)
             (log ERROR [FText "Response content: "; FText (text r)]) ;;
           ret VNone
       | JSONDecodeError r =>
           log ERROR [FText name; FText " JSON Decode Error: "; FExn e] ;;
           when (debug_mode self)
             (log ERROR [FText "Raw response: "; FText (text r)]) ;;
           ret VNone
       | _ =>
           log ERROR [FText name; FText " General Error: "; FExn e] ;;
           emit (PrintExc e) ;;
           ret VNone
       end).

Definition get_fireballs (w : world) (self : NasaSsdCneosApi)
    (limit date_min energy_min : pyval) : M pyval :=
  let params := [("limit", limit)] in
  let params :=
    if truthy date_min then sdict_set params "date-min" date_min else params in
  let params :=
    if truthy energy_min then sdict_set params "energy-min" energy_min
    else params in
  _make_api_request w self (fireball_url self) params "Fireball API".

Definition get_close_approaches (w : world) (self : NasaSsdCneosApi)
    (dist_max date_min date_max h_min h_max v_inf_min v_inf_max limit : pyval)
    : M pyval :=
  let params :=
    [("limit", limit);
     ("dist-max", dist_max);
     ("date-min", date_min);
     ("date-max", date_max);
     ("h-min", h_min);
     ("h-max", h_max);
     ("v-inf-min", v_inf_min);
     ("v-inf-max", v_inf_max);
     ("sort", VStr "date")] in
  _make_api_request w self (ca_url self) params "Close Approaches API".

Definition rename_map_fireballs : list (string * string) :=
  [("date", "Date/Time");
   ("energy", "Energy (kt)");
   ("impact-e", "Impact Energy (10^10 J)");
   ("lat", "Latitude");
   ("lon", "Longitude");
   ("alt", "Altitude (km)");
   ("vel", "Velocity (km/s)")].

Definition rename_map_close_approaches : list (string * string) :=
  [("des", "Object");
   ("orbit_id", "Orbit ID");
   ("cd", "Time (TDB)");
   ("dist", "Nominal Distance (au)");
   ("dist_min", "Minimum Distance (au)");
   ("dist_max", "Maximum Distance (au)");
   ("v_rel", "Velocity (km/s)");
   ("h", "H (mag)")].

(** [{k: v for k, v in rename_map.items() if k in df.columns}] *)
Definition valid_rename (rename_map : list (string * string)) (df : DataFrame)
    : list (string * string) :=
  filter (fun kv => has_column (fst kv) df) rename_map.

(** The last step of [format_response] (from [if format_type ==
    'fireballs'] to [return df]): the table under its display names. *)
Definition format_columns (format_type : string) (df : DataFrame) : DataFrame :=
  if String.eqb format_type "fireballs" then
    rename (valid_rename rename_map_fireballs df) df
  else if String.eqb format_type "close_approaches" then
    rename (valid_rename rename_map_close_approaches df) df
  else df.

(** [[dict(zip(fields, row)) for row in rows]] *)
Definition records (fields rows : pyval) : M (list pydict) :=
  rs <- lift (py_iter rows) ;;
  lift (dict_zip_all fields rs).

Definition format_response (self : NasaSsdCneosApi) (data : pyval)
    (format_type : string) : M (option DataFrame) :=
  try_except
    (if negb (truthy data) then
       log WARNING [FText "No data received for "; FText format_type;
                    FText " format"] ;;
       ret None
     else
       signature <- method_get data "signature" VNone ;;
       fields <- method_get data "fields" signature ;;
       rows <- method_get data "data" VNone ;;
       if negb (truthy fields) || negb (truthy rows) then
         log WARNING [FText "Missing fields or data rows for ";
                      FText format_type; FText " format"] ;;
         keys <- method_keys data ;;
         log DEBUG [FText "Data structure: "; FVal keys] ;;
         ret None
       else
         ds <- records fields rows ;;
         let df := DataFrame_of_records ds in
         if empty df then
           log WARNING [FText "Empty DataFrame created for ";
                        FText format_type] ;;
           ret None
         else
           when (debug_mode self)
             (log INFO [FText "Available columns in "; FText format_type;
                        FText " response: "; FVal (VList (columns df))]) ;;
           ret (Some (format_columns format_type df)))
    (fun e =>
       log ERROR [FText "Data formatting error for "; FText format_type;
                  FText ": "; FExn e] ;;
       emit (PrintExc e) ;;
       ret None).

(** ** The Gradio callbacks *)

(** The first component of what a callback returns: a message for the
    user (an f-string) or the table. *)
Inductive out : Type :=
| OutMsg (msg : list piece)
| OutTable (df : DataFrame).

(** What a callback returns: the message or table, and the figure or
    [None]. *)
Definition result : Type := (out * option Figure)%type.

(** A text box delivers a string; [None] stands for no value at all. *)
Definition text_input := option string.

(** [bool(x)] for a text input *)
Definition given (x : text_input) : bool :=
  match x with
  | Some s => negb (String.eqb s EmptyString)
  | None => false
  end.

(** The input as a Python value *)
Definition input_val (x : text_input) : pyval :=
  match x with Some s => VStr s | None => VNone end.

(** [x.strip() if x else None] *)
Definition strip_or_none (x : text_input) : pyval :=
  match x with
  | Some s => if given x then VStr (strip s) else VNone
  | None => VNone
  end.

(** [float(x) if x else None] *)
Definition float_or_none (x : text_input) : M pyval :=
  match x with
  | Some s =>
      if given x then
        match py_float s with
        | inl msg => raise (ValueError msg)
        | inr f => ret (VFloat f)
        end
      else ret VNone
  | None => ret VNone
  end.

(** [name if name in df.columns else None] *)
Definition column_or_none (name : string) (df : DataFrame) : option label :=
  if has_column name df then Some (VStr name) else None.

Definition no_data_message : list piece :=
  [FText "No data returned from API. There might be an issue with the connection or parameters."].

(** The chart step of [fetch_fireballs], from [# Create world map of
    fireballs] to the last [return df, None]: the table with its map, or
    the table alone. *)
Definition fireball_chart (w : world) (df : DataFrame) : M result :=
  if has_column "Latitude" df && has_column "Longitude" df then
    try_except
      (let size_col := column_or_none "Energy (kt)" df in
       fig <- px w df
                (ScatterGeo (VStr "Latitude") (VStr "Longitude")
                   size_col (column_or_none "Date/Time" df)
                   "natural earth" "Fireball Events") ;;
       ret (OutTable df, Some fig))
      (fun plot_err =>
         log ERROR [FText "Error creating fireball plot: "; FExn plot_err] ;;
         ret (OutTable df, None))
  else ret (OutTable df, None).

(** The chart step of [fetch_close_approaches], the [try] block under
    [# Create scatter plot]. *)
Definition close_approach_chart (w : world) (df : DataFrame) : M result :=
  try_except
    (x_col <- (if has_column "Nominal Distance (au)" df
               then ret (VStr "Nominal Distance (au)")
               else lift (column_at df 0)) ;;
     y_col <- (if has_column "Velocity (km/s)" df
               then ret (VStr "Velocity (km/s)")
               else lift (column_at df 1)) ;;
     let hover_col := column_or_none "Object" df in
     let size_col := column_or_none "H (mag)" df in
     let color_col := column_or_none "H (mag)" df in
     fig <- px w df
              (Scatter x_col y_col hover_col size_col color_col
                 "Close Approaches - Distance vs Velocity") ;;
     ret (OutTable df, Some fig))
    (fun plot_err =>
       log ERROR [FText "Error creating close approach plot: ";
                  FExn plot_err] ;;
       ret (OutTable df, None)).

Definition fetch_fireballs (w : world) (limit : Z)
    (date_min energy_min : text_input) : M result :=
  try_except
    (let api := NasaSsdCneosApi_init in
     let date_min := strip_or_none date_min in
     conv <- try_except
               (v <- float_or_none energy_min ;; ret (inr v))
               (fun e =>
                  match e with
                  | ValueError _ =>
                      ret (inl (OutMsg [FText "Error: Invalid energy value '";
                                        FVal (input_val energy_min);
                                        FText "'. Please enter a valid number."],
                                None))
                  | _ => raise e
                  end) ;;
     match conv with
     | inl r => ret r
     | inr energy_min =>
         data <- get_fireballs w api (VInt limit) date_min energy_min ;;
         if negb (truthy data) then ret (OutMsg no_data_message, None)
         else
           df <- format_response api data "fireballs" ;;
           match df with
           | None =>
               ret (OutMsg [FText "No fireball data available for the specified parameters."], None)
           | Some df =>
               if empty df then
                 ret (OutMsg [FText "No fireball data available for the specified parameters."], None)
               else fireball_chart w df
           end
     end)
    (fun e =>
       log ERROR [FText "Error in fetch_fireballs: "; FExn e] ;;
       emit (PrintExc e) ;;
       ret (OutMsg [FText "An error occurred: "; FExn e], None)).

Definition fetch_close_approaches (w : world) (limit : Z)
    (dist_max date_min date_max h_min h_max v_inf_min v_inf_max : text_input)
    : M result :=
  try_except
    (let api := NasaSsdCneosApi_init in
     conv <- try_except
               (dist_max <- float_or_none dist_max ;;
                h_min <- float_or_none h_min ;;
                h_max <- float_or_none h_max ;;
                v_inf_min <- float_or_none v_inf_min ;;
                v_inf_max <- float_or_none v_inf_max ;;
                ret (inr (dist_max, h_min, h_max, v_inf_min, v_inf_max)))
               (fun e =>
                  match e with
                  | ValueError ve =>
                      ret (inl (OutMsg [FText "Error: Invalid numeric input - ";
                                        FText ve], None))
                  | _ => raise e
                  end) ;;
     match conv with
     | inl r => ret r
     | inr (dist_max, h_min, h_max, v_inf_min, v_inf_max) =>
         let date_min := strip_or_none date_min in
         let date_max := strip_or_none date_max in
         data <- get_close_approaches w api dist_max date_min date_max
                   h_min h_max v_inf_min v_inf_max (VInt limit) ;;
         if negb (truthy data) then ret (OutMsg no_data_message, None)
         else
           df <- format_response api data "close_approaches" ;;
           match df with
           | None =>
               ret (OutMsg [FText "No close approach data available for the specified parameters."], None)
           | Some df =>
               if empty df then
                 ret (OutMsg [FText "No close approach data available for the specified parameters."], None)
               else close_approach_chart w df
           end
     end)
    (fun e =>
       log ERROR [FText "Error in fetch_close_approaches: "; FExn e] ;;
       emit (PrintExc e) ;;
       ret (OutMsg [FText "An error occurred: "; FExn e], None)).

End App.

(* ===================================================================== *)
(** * The vocabulary of the properties *)
(* ===================================================================== *)

Module Spec.
Import Py Eff Pandas App.
Local Open Scope eff_scope.

(** ** Computations *)

(** A computation that sends no request. *)
Definition quiet {A} (m : M A) : Prop := requests_of (trace m) = [].

(** A computation that does not raise. *)
Definition total {A} (m : M A) : Prop := exists a, outcome m = Ok a.

(** ** Transport client *)

(** A value that may be transmitted: neither [None] nor the empty
    string. *)
Definition present (v : pyval) : Prop := v <> VNone /\ v <> VStr EmptyString.

(** The four ways a request fails, as the handlers of
    [_make_api_request] tell them apart. *)
Inductive failure : Type :=
| NetworkError (f : net_failure)
| HttpStatusError (status : Z) (body : string)
| DecodeError
| ApiError (message : pyval).

(** What the server's answer to the cleaned request amounts to. *)
Definition classify (w : world) (url : string) (params : sdict)
    : failure + pyval :=
  match http w url (clean params) with
  | inl f => inl (NetworkError f)
  | inr r =>
      if (400 <=? status_code r) && (status_code r <? 600)
      then inl (HttpStatusError (status_code r) (text r))
      else
        match json r with
        | None => inl DecodeError
        | Some data =>
            if is_dict data && dict_has "error" data
            then inl (ApiError (dict_item data "error"))
            else inr data
        end
  end.

(** The words by which the log tells the failure kinds apart. *)
Definition log_tag (k : failure) : string :=
  match k with
  | NetworkError _ => " General Error: "
  | HttpStatusError _ _ => " HTTP Error: "
  | DecodeError => " JSON Decode Error: "
  | ApiError _ => " API Error: "
  end.

(** ** Table normalizer *)

(** The payload has no usable field list or no usable rows. *)
Definition lacks_table (data : pyval) : Prop :=
  (dict_has "fields" data = false /\ dict_has "signature" data = false)
  \/ dict_has "data" data = false
  \/ truthy (dict_item data "data") = false.

(** The rename table of a dataset kind; other kinds rename nothing. *)
Definition rename_map_of (format_type : string) : list (string * string) :=
  if String.eqb format_type "fireballs" then rename_map_fireballs
  else if String.eqb format_type "close_approaches"
       then rename_map_close_approaches
  else [].

(** The display names of a kind. *)
Definition display_names (format_type : string) : list label :=
  map (fun kv => VStr (snd kv)) (rename_map_of format_type).

(** The source keys of a kind. *)
Definition source_keys (format_type : string) : list label :=
  map (fun kv => VStr (fst kv)) (rename_map_of format_type).

(** The field list the code resolves: [fields] when the key is there,
    [signature] otherwise. *)
Definition field_list (d : sdict) : pyval :=
  sdict_get d "fields" (sdict_get d "signature" VNone).

(** A payload as the specification calls it well formed: a mapping whose
    field list is a list of names, whose [data] is a non-empty list of
    rows, every row as long as the field list. *)
Definition well_formed (payload : pyval) : Prop :=
  exists d names rws,
    payload = VDict d
    /\ field_list d = VList (map VStr names)
    /\ sdict_get d "data" VNone = VList (map VList rws)
    /\ rws <> []
    /\ Forall (fun vs => List.length vs = List.length names) rws.

(** The scenario of the specification: four fields, one row. *)
Definition fireball_payload : sdict :=
  [("fields", VList [VStr "date"; VStr "energy"; VStr "lat"; VStr "lon"]);
   ("data", VList [VList [VStr "2023-01-01T00:00:00"; VStr "0.5";
                          VInt 10; VInt (-20)]])].

(** Modelled on the words of the specification (zip each row positionally
    against the field names): the value a row gives to the name [n], taken
    at the last position, among those the row and the field list share,
    where the field list has [n]; [None] where there is no such
    position. *)
Definition zip_lookup (names : list string) (vs : list pyval) (n : string)
    : option pyval :=
  fold_left (fun acc p => if String.eqb (fst p) n then Some (snd p) else acc)
            (combine names vs) None.

(** The cell of a row under a column label. *)
Definition cell (names : list string) (vs : list pyval) (c : label)
    : option pyval :=
  match c with
  | VStr n => zip_lookup names vs n
  | _ => None
  end.

(** Two fields and three rows: one short, one exact, one long. *)
Definition ragged_payload : sdict :=
  [("fields", VList [VStr "a"; VStr "b"]);
   ("data", VList [VList [VInt 1];
                   VList [VInt 2; VInt 3];
                   VList [VInt 4; VInt 5; VInt 6]])].

(** ** Callbacks *)

(** What [float(x) if x else None] makes of a text input: the message of
    the [ValueError], or the value. *)
Definition parsed (x : text_input) : string + pyval :=
  match x with
  | Some s =>
      if given x then
        match py_float s with
        | inl msg => inl msg
        | inr f => inr (VFloat f)
        end
      else inr VNone
  | None => inr VNone
  end.

(** The messages of the callbacks. *)
Definition no_fireball_message : list piece :=
  [FText "No fireball data available for the specified parameters."].

(** What [fetch_fireballs] does with the answer of [get_fireballs]. *)
Definition fireballs_render (w : world) (data : pyval) : M result :=
  if negb (truthy data) then ret (OutMsg no_data_message, None)
  else
    df <- format_response NasaSsdCneosApi_init data "fireballs" ;;
    match df with
    | None => ret (OutMsg no_fireball_message, None)
    | Some df =>
        if empty df then ret (OutMsg no_fireball_message, None)
        else fireball_chart w df
    end.

(** The parameters [get_fireballs] builds. *)
Definition fireball_params (limit date_min energy_min : pyval) : sdict :=
  let params := [("limit", limit)] in
  let params :=
    if truthy date_min then sdict_set params "date-min" date_min else params in
  if truthy energy_min then sdict_set params "energy-min" energy_min
  else params.

Definition invalid_energy_message (energy_min : text_input) : list piece :=
  [FText "Error: Invalid energy value '"; FVal (input_val energy_min);
   FText "'. Please enter a valid number."].

Definition no_close_approach_message : list piece :=
  [FText "No close approach data available for the specified parameters."].

(** What [fetch_close_approaches] does with the answer of
    [get_close_approaches]. *)
Definition close_approaches_render (w : world) (data : pyval) : M result :=
  if negb (truthy data) then ret (OutMsg no_data_message, None)
  else
    df <- format_response NasaSsdCneosApi_init data "close_approaches" ;;
    match df with
    | None => ret (OutMsg no_close_approach_message, None)
    | Some df =>
        if empty df then ret (OutMsg no_close_approach_message, None)
        else close_approach_chart w df
    end.

(** The parameters [get_close_approaches] builds. *)
Definition close_approach_params
    (dist_max date_min date_max h_min h_max v_inf_min v_inf_max limit : pyval)
    : sdict :=
  [("limit", limit);
   ("dist-max", dist_max);
   ("date-min", date_min);
   ("date-max", date_max);
   ("h-min", h_min);
   ("h-max", h_max);
   ("v-inf-min", v_inf_min);
   ("v-inf-max", v_inf_max);
   ("sort", VStr "date")].

(** The five conversions of [fetch_close_approaches], in the order of the
    code: the message of the first [ValueError], or the five values. *)
Definition conversions (dist_max h_min h_max v_inf_min v_inf_max : text_input)
    : string + (pyval * pyval * pyval * pyval * pyval) :=
  match parsed dist_max with
  | inl ve => inl ve
  | inr a =>
      match parsed h_min with
      | inl ve => inl ve
      | inr b =>
          match parsed h_max with
          | inl ve => inl ve
          | inr c =>
              match parsed v_inf_min with
              | inl ve => inl ve
              | inr d =>
                  match parsed v_inf_max with
                  | inl ve => inl ve
                  | inr e => inr (a, b, c, d, e)
                  end
              end
          end
      end
  end.

Definition invalid_numeric_message (ve : string) : list piece :=
  [FText "Error: Invalid numeric input - "; FText ve].

(** The client object both callbacks create. *)
Definition api : NasaSsdCneosApi := NasaSsdCneosApi_init.

(** The value [_make_api_request] returns. *)
Definition fetched (w : world) (url : string) (params : sdict) : pyval :=
  match classify w url params with inl _ => VNone | inr v => v end.

(** The parameters of the request [fetch_fireballs] makes. *)
Definition fireball_request (limit : Z) (date_min : text_input) (e : pyval)
    : sdict :=
  fireball_params (VInt limit) (strip_or_none date_min) e.

(** The parameters of the request [fetch_close_approaches] makes. *)
Definition close_approach_request (limit : Z) (date_min date_max : text_input)
    (a b c d e : pyval) : sdict :=
  close_approach_params a (strip_or_none date_min) (strip_or_none date_max)
    b c d e (VInt limit).

(** A request all of whose parameters are present. *)
Definition clean_request (req : string * sdict) : Prop :=
  forall k v, In (k, v) (snd req) -> present v.

(** ** Worlds and payloads for the examples *)

(** A server that cannot be reached. *)
Definition offline : world :=
  mkWorld (fun _ _ => inl ConnectionError) (fun _ => true).

(** A server that answers every request with [r]. *)
Definition answering (r : Response) : world :=
  mkWorld (fun _ _ => inr r) (fun _ => true).

(** The server answers every request with a JSON mapping that has an
    [error] key. *)
Definition answers_error (w : world) : Prop :=
  forall url params, exists r d,
    http w url params = inr r /\ json r = Some (VDict d)
    /\ sdict_mem "error" d = true.

(** An error payload that also carries a table. *)
Definition error_response : Response :=
  mkResponse 200 "{...}"
    (Some (VDict [("error", VStr "no records found");
                  ("fields", VList [VStr "date"]);
                  ("data", VList [VList [VStr "2023-01-01"]])])).

(** A payload with dates and energies but no coordinates. *)
Definition no_coordinates : Response :=
  mkResponse 200 "{...}"
    (Some (VDict [("fields", VList [VStr "date"; VStr "energy"; VStr "lat"]);
                  ("data", VList [VList [VStr "2023-01-01"; VStr "0.5";
                                         VStr "10.0"]])])).

(** ** Presentation adapter *)

(** Modelled on the words of the specification: the X axis is the nominal
    distance when that column is there, else the first column. *)
Definition x_axis (df : DataFrame) : option label :=
  if has_column "Nominal Distance (au)" df
  then Some (VStr "Nominal Distance (au)")
  else nth_error (columns df) 0.

(** The Y axis is the velocity when that column is there, else the second
    column. *)
Definition y_axis (df : DataFrame) : option label :=
  if has_column "Velocity (km/s)" df
  then Some (VStr "Velocity (km/s)")
  else nth_error (columns df) 1.

(** Marker size and colour are both [H (mag)] when that column is there;
    the hover label is [Object] when that column is there. *)
Definition scatter_of (df : DataFrame) (x y : label) : Figure :=
  mkFigure df
    (Scatter x y
       (if has_column "Object" df then Some (VStr "Object") else None)
       (if has_column "H (mag)" df then Some (VStr "H (mag)") else None)
       (if has_column "H (mag)" df then Some (VStr "H (mag)") else None)
       "Close Approaches - Distance vs Velocity").

(** The chart of a table: the scatter plot over the two axes when both
    exist and plotly builds it. *)
Definition chart_of (w : world) (df : DataFrame) : option Figure :=
  match x_axis df, y_axis df with
  | Some x, Some y =>
      if plotly_accepts w (scatter_of df x y) then Some (scatter_of df x y)
      else None
  | _, _ => None
  end.

(** The scenario of the specification: a payload with [h] but neither
    [dist] nor [v_rel]. *)
Definition only_h : Response :=
  mkResponse 200 "{...}"
    (Some (VDict [("fields", VList [VStr "des"; VStr "cd"; VStr "h"]);
                  ("data", VList [VList [VStr "2023 AB"; VStr "2023-Jan-01";
                                         VStr "25.1"]])])).

(** ** Further vocabulary *)

(** What [format_response] returns for a mapping, read off its steps: the
    truth tests, the records, the emptiness test, the renaming. A failure
    while the records are built gives [None]. *)
Definition normalized (d : sdict) (format_type : string) : option DataFrame :=
  if negb (truthy (VDict d)) then None
  else if negb (truthy (field_list d))
          || negb (truthy (sdict_get d "data" VNone)) then None
  else
    match outcome (records (field_list d) (sdict_get d "data" VNone)) with
    | Ok ds =>
        if empty (DataFrame_of_records ds) then None
        else Some (format_columns format_type (DataFrame_of_records ds))
    | Raise _ => None
    end.

(** The mapping [d] with its key [signature] called [fields]. *)
Definition signature_as_fields (d : sdict) : sdict :=
  map (fun kv => if String.eqb (fst kv) "signature"
                 then ("fields", snd kv) else kv) d.

(** The map of a fireball table: there when both coordinates are columns
    and plotly builds it. *)
Definition geo_of (df : DataFrame) : Figure :=
  mkFigure df
    (ScatterGeo (VStr "Latitude") (VStr "Longitude")
       (if has_column "Energy (kt)" df then Some (VStr "Energy (kt)") else None)
       (if has_column "Date/Time" df then Some (VStr "Date/Time") else None)
       "natural earth" "Fireball Events").

Definition geo_chart_of (w : world) (df : DataFrame) : option Figure :=
  if has_column "Latitude" df && has_column "Longitude" df then
    if plotly_accepts w (geo_of df) then Some (geo_of df) else None
  else None.

(** [[(key, v)]] when [v] is true, nothing otherwise: an optional
    parameter of [get_fireballs]. *)
Definition if_true (key : string) (v : pyval) : sdict :=
  if truthy v then [(key, v)] else [].

(** [[(key, v)]] when [v] is neither [None] nor the empty string. *)
Definition if_present (key : string) (v : pyval) : sdict :=
  if is_not_None v && ne_empty_str v then [(key, v)] else [].

(** The row dictionary with the string keys and the values of [acc]. *)
Definition named (acc : list (string * pyval)) : pydict :=
  map (fun kv => (VStr (fst kv), snd kv)) acc.

(** The values a [for] loop or [zip] can run over. *)
Definition iterable (v : pyval) : bool :=
  match v with
  | VList _ | VStr _ | VDict _ => true
  | _ => false
  end.

(** A server that answers every request with status 200 and the JSON
    value [v]. *)
Definition serving (v : pyval) : world :=
  answering (mkResponse 200 "..." (Some v)).

(** The same server beside a plotly that builds no figure. *)
Definition without_plots (v : pyval) : world :=
  mkWorld (fun _ _ => inr (mkResponse 200 "..." (Some v))) (fun _ => false).

(** The one entry [fetch_fireballs] logs when plotly fails. *)
Definition fireball_plot_error (e : exn) : event :=
  Log ERROR [FText "Error creating fireball plot: "; FExn e].

(** The one entry [fetch_close_approaches] logs when the chart fails. *)
Definition close_approach_plot_error (e : exn) : event :=
  Log ERROR [FText "Error creating close approach plot: "; FExn e].

End Spec.

(* ===================================================================== *)
(** * Reasoning about computations *)
(* ===================================================================== *)

Module EffFacts.
Import Py Eff Spec.
Local Open Scope eff_scope.

Lemma bind_Ok {A B} (m : M A) (f : A -> M B) (a : A) (t : list event) :
  m = (Ok a, t) ->
  bind m f = (outcome (f a), (t ++ trace (f a))%list).
Proof. intros ->. unfold bind, outcome, trace. destruct (f a); reflexivity. Qed.

Lemma bind_Raise {A B} (m : M A) (f : A -> M B) (e : exn) (t : list event) :
  m = (Raise e, t) -> bind m f = (Raise e, t).
Proof. intros ->. reflexivity. Qed.

Lemma try_except_Ok {A} (m : M A) (h : exn -> M A) (a : A) (t : list event) :
  m = (Ok a, t) -> try_except m h = (Ok a, t).
Proof. intros ->. reflexivity. Qed.

Lemma try_except_Raise {A} (m : M A) (h : exn -> M A) (e : exn) (t : list event) :
  m = (Raise e, t) ->
  try_except m h = (outcome (h e), (t ++ trace (h e))%list).
Proof. intros ->. unfold try_except, outcome, trace. destruct (h e); reflexivity. Qed.

Lemma surjective_run {A} (m : M A) : m = (outcome m, trace m).
Proof. destruct m; reflexivity. Qed.

Lemma requests_of_app (t t' : list event) :
  requests_of (t ++ t') = (requests_of t ++ requests_of t')%list.
Proof. unfold requests_of. apply flat_map_app. Qed.

Lemma quiet_ret {A} (a : A) : quiet (ret a).
Proof. reflexivity. Qed.

Lemma quiet_raise {A} (e : exn) : quiet (@raise A e).
Proof. reflexivity. Qed.

Lemma quiet_lift {A} (r : res A) : quiet (lift r).
Proof. reflexivity. Qed.

Lemma quiet_log (lvl : level) (msg : list piece) : quiet (log lvl msg).
Proof. reflexivity. Qed.

Lemma quiet_print_exc (e : exn) : quiet (emit (PrintExc e)).
Proof. reflexivity. Qed.

Lemma quiet_bind {A B} (m : M A) (f : A -> M B) :
  quiet m -> (forall a, quiet (f a)) -> quiet (bind m f).
Proof.
  unfold quiet. destruct m as [[a | e] t]; simpl; intros Hm Hf; [ | exact Hm].
  specialize (Hf a). destruct (f a) as [r t']. simpl in *.
  rewrite requests_of_app, Hm, Hf. reflexivity.
Qed.

Lemma quiet_try_except {A} (m : M A) (h : exn -> M A) :
  quiet m -> (forall e, quiet (h e)) -> quiet (try_except m h).
Proof.
  unfold quiet. destruct m as [[a | e] t]; simpl; intros Hm Hh; [exact Hm | ].
  specialize (Hh e). destruct (h e) as [r t']. simpl in *.
  rewrite requests_of_app, Hm, Hh. reflexivity.
Qed.

Lemma quiet_when (b : bool) (m : M unit) : quiet m -> quiet (when b m).
Proof. destruct b; intros H; [exact H | reflexivity]. Qed.

Lemma total_ret {A} (a : A) : total (ret a).
Proof. exists a. reflexivity. Qed.

Lemma total_log (lvl : level) (msg : list piece) : total (log lvl msg).
Proof. exists tt. reflexivity. Qed.

Lemma total_emit (ev : event) : total (emit ev).
Proof. exists tt. reflexivity. Qed.

Lemma total_bind {A B} (m : M A) (f : A -> M B) :
  total m -> (forall a, total (f a)) -> total (bind m f).
Proof.
  unfold total. destruct m as [[a | e] t]; simpl; intros [a' Hm] Hf;
    [ | discriminate].
  destruct (Hf a) as [b Hb]. destruct (f a) as [r t']. simpl in *.
  exists b. exact Hb.
Qed.

Lemma total_when (b : bool) (m : M unit) : total m -> total (when b m).
Proof. destruct b; intros H; [exact H | exists tt; reflexivity]. Qed.

(** A [try] whose handler always returns, returns. *)
Lemma total_try_except {A} (m : M A) (h : exn -> M A) :
  (forall e, total (h e)) -> total (try_except m h).
Proof.
  unfold total. destruct m as [[a | e] t]; simpl; intros Hh.
  - exists a. reflexivity.
  - destruct (Hh e) as [a Ha]. destruct (h e) as [r t']. simpl in *.
    exists a. exact Ha.
Qed.

Create HintDb eff discriminated.
#[export] Hint Resolve quiet_ret quiet_raise quiet_lift quiet_log
  quiet_print_exc quiet_bind quiet_try_except quiet_when
  total_ret total_log total_emit total_bind total_when total_try_except : eff.

End EffFacts.

(* ===================================================================== *)
(** * Facts about row dictionaries and tables *)
(* ===================================================================== *)

Module PandasFacts.
Import Py Eff Pandas Spec.

(** Only a string equals a string. *)
Lemma key_eqb_VStr_r (x : pyval) (s : string) :
  key_eqb x (VStr s) = true <-> x = VStr s.
Proof.
  destruct x; simpl; try (split; [discriminate | congruence]).
  rewrite String.eqb_eq. split; congruence.
Qed.

Lemma key_eqb_VStr_l (s : string) (x : pyval) :
  key_eqb (VStr s) x = true <-> x = VStr s.
Proof.
  destruct x; simpl; try (split; [discriminate | congruence]).
  rewrite String.eqb_eq. split; congruence.
Qed.

Lemma key_eqb_VStr (s t : string) : key_eqb (VStr s) (VStr t) = String.eqb s t.
Proof. reflexivity. Qed.

Lemma label_mem_VStr (s : string) (cols : list label) :
  label_mem (VStr s) cols = true <-> In (VStr s) cols.
Proof.
  unfold label_mem. rewrite existsb_exists. split.
  - intros [c [Hin Hc]]. apply key_eqb_VStr_r in Hc. subst. exact Hin.
  - intros Hin. exists (VStr s). split; [exact Hin | ].
    apply key_eqb_VStr_r. reflexivity.
Qed.

(** *** Keys of a dictionary built from pairs *)

Lemma dict_set_keys (d : pydict) (k : label) (v : pyval) (c : label) :
  In c (map fst (dict_set d k v)) -> In c (map fst d) \/ c = k.
Proof.
  induction d as [ | [k' v'] d IH]; simpl.
  - intros [H | []]. right. symmetry. exact H.
  - destruct (key_eqb k' k); simpl.
    + intros H. left. exact H.
    + intros [H | H]; [left; left; exact H | ].
      destruct (IH H) as [H' | H']; [left; right; exact H' | right; exact H'].
Qed.

Lemma dict_set_nonempty (d : pydict) (k : label) (v : pyval) :
  dict_set d k v <> [].
Proof.
  destruct d as [ | [k' v'] d]; simpl; [discriminate | ].
  destruct (key_eqb k' k); discriminate.
Qed.

Lemma dict_of_pairs_Ok (ps : list (pyval * pyval)) (acc : pydict) :
  Forall (fun kv => hashable (fst kv) = true) ps ->
  exists d, dict_of_pairs ps acc = Ok d
    /\ (forall c, In c (map fst d) -> In c (map fst acc) \/ In c (map fst ps))
    /\ (acc <> [] \/ ps <> [] -> d <> []).
Proof.
  revert acc. induction ps as [ | [k v] ps IH]; intros acc Hh; simpl.
  - exists acc. split; [reflexivity | ]. split.
    + intros c H. left. exact H.
    + intros [H | H]; [exact H | congruence].
  - inversion Hh as [ | x l Hk Hps]; subst. simpl in Hk. rewrite Hk.
    destruct (IH (dict_set acc k v) Hps) as [d [Hd [Hkeys Hne]]].
    exists d. split; [exact Hd | ]. split.
    + intros c Hc. destruct (Hkeys c Hc) as [H | H].
      * destruct (dict_set_keys _ _ _ _ H) as [H' | H'];
          [left; exact H' | right; left; symmetry; exact H'].
      * right. right. exact H.
    + intros _. apply Hne. left. apply dict_set_nonempty.
Qed.

Lemma combine_keys {A B} (l : list A) (l' : list B) (c : A) :
  In c (map fst (combine l l')) -> In c l.
Proof.
  intros H. apply in_map_iff in H. destruct H as [[a b] [Hc Hin]].
  simpl in Hc. subst. eapply in_combine_l. exact Hin.
Qed.

(** The row dictionary of a list row against a list of hashable
    fields. *)
Lemma dict_zip_Ok (fs vs : list pyval) :
  Forall (fun f => hashable f = true) fs ->
  exists d, dict_zip (VList fs) (VList vs) = Ok d
    /\ (forall c, In c (map fst d) -> In c fs)
    /\ (fs <> [] -> vs <> [] -> d <> []).
Proof.
  intros Hh. unfold dict_zip. simpl.
  destruct (dict_of_pairs_Ok (combine fs vs) []) as [d [Hd [Hkeys Hne]]].
  - apply Forall_forall. intros [k v] Hin. simpl.
    rewrite Forall_forall in Hh. apply Hh. eapply in_combine_l. exact Hin.
  - exists d. split; [exact Hd | ]. split.
    + intros c Hc. destruct (Hkeys c Hc) as [[] | H].
      eapply combine_keys. exact H.
    + intros Hf Hv. apply Hne. right.
      destruct fs; [congruence | ]. destruct vs; [congruence | ].
      discriminate.
Qed.

Lemma dict_zip_all_Ok (fs : list pyval) (rws : list (list pyval)) :
  Forall (fun f => hashable f = true) fs ->
  exists ds, dict_zip_all (VList fs) (map VList rws) = Ok ds
    /\ Forall2 (fun vs d => dict_zip (VList fs) (VList vs) = Ok d) rws ds.
Proof.
  intros Hh. induction rws as [ | vs rws [ds [Hds Hall]]].
  - exists []. split; [reflexivity | constructor].
  - destruct (dict_zip_Ok fs vs Hh) as [d [Hd _]].
    exists (d :: ds). simpl. rewrite Hd, Hds. split; [reflexivity | ].
    constructor; assumption.
Qed.

(** *** The columns of a table built from records *)

Lemma add_keys_extends (d : pydict) (cols : list label) :
  exists l, add_keys cols d = (cols ++ l)%list
    /\ (forall c, In c l -> In c (map fst d)).
Proof.
  unfold add_keys. revert cols.
  induction d as [ | [k v] d IH]; intros cols; simpl.
  - exists []. rewrite app_nil_r. split; [reflexivity | intros c []].
  - destruct (label_mem k cols).
    + destruct (IH cols) as [l [Hl Hin]]. exists l. split; [exact Hl | ].
      intros c Hc. right. apply Hin. exact Hc.
    + destruct (IH (cols ++ [k])%list) as [l [Hl Hin]]. exists (k :: l).
      rewrite Hl, <- app_assoc. split; [reflexivity | ].
      intros c [Hc | Hc]; [left; exact Hc | right; apply Hin; exact Hc].
Qed.

Lemma add_keys_nonempty (d : pydict) (cols : list label) :
  d <> [] -> add_keys cols d <> [].
Proof.
  intros Hd. destruct d as [ | [k v] d]; [congruence | ].
  unfold add_keys. simpl. destruct cols as [ | c cols].
  - simpl. destruct (add_keys_extends d [k]) as [l [Hl _]].
    unfold add_keys in Hl. rewrite Hl. discriminate.
  - remember (if label_mem k (c :: cols) then c :: cols
              else ((c :: cols) ++ [k])%list) as cols' eqn:E.
    destruct (add_keys_extends d cols') as [l [Hl _]].
    unfold add_keys in Hl. rewrite Hl.
    destruct (label_mem k (c :: cols)); subst cols'; discriminate.
Qed.

Lemma fold_add_keys_extends (ds : list pydict) (cols : list label) :
  exists l, fold_left add_keys ds cols = (cols ++ l)%list
    /\ (forall c, In c l -> exists d, In d ds /\ In c (map fst d)).
Proof.
  revert cols. induction ds as [ | d ds IH]; intros cols; simpl.
  - exists []. rewrite app_nil_r. split; [reflexivity | intros c []].
  - destruct (add_keys_extends d cols) as [l1 [Hl1 Hin1]].
    destruct (IH (add_keys cols d)) as [l2 [Hl2 Hin2]].
    exists (l1 ++ l2)%list. rewrite Hl2, Hl1, <- app_assoc.
    split; [reflexivity | ].
    intros c Hc. apply in_app_or in Hc. destruct Hc as [Hc | Hc].
    + exists d. split; [left; reflexivity | apply Hin1; exact Hc].
    + destruct (Hin2 c Hc) as [d' [Hd' Hk]]. exists d'.
      split; [right; exact Hd' | exact Hk].
Qed.

(** Every column is a key of some record. *)
Lemma union_keys_sound (ds : list pydict) (c : label) :
  In c (union_keys ds) -> exists d, In d ds /\ In c (map fst d).
Proof.
  unfold union_keys. destruct (fold_add_keys_extends ds []) as [l [Hl Hin]].
  rewrite Hl. simpl. apply Hin.
Qed.

(** A non-empty first record gives at least one column. *)
Lemma union_keys_nonempty (d : pydict) (ds : list pydict) :
  d <> [] -> union_keys (d :: ds) <> [].
Proof.
  intros Hd. unfold union_keys. simpl.
  destruct (fold_add_keys_extends ds (add_keys [] d)) as [l [Hl _]].
  rewrite Hl. intros H. apply app_eq_nil in H. destruct H as [H _].
  exact (add_keys_nonempty d [] Hd H).
Qed.

Lemma len_DataFrame_of_records (ds : list pydict) :
  len (DataFrame_of_records ds) = List.length ds.
Proof. unfold len, DataFrame_of_records. simpl. apply length_map. Qed.

End PandasFacts.

(* ===================================================================== *)
(** * Properties of the transport client *)
(* ===================================================================== *)

Module Transport.
Import Py Eff Pandas App Spec EffFacts.
Local Open Scope eff_scope.

(** The cleaned mapping holds the present entries and no other. *)
Lemma clean_spec (params : sdict) (k : string) (v : pyval) :
  In (k, v) (clean params) <-> In (k, v) params /\ present v.
Proof.
  unfold clean, present. rewrite filter_In. simpl.
  rewrite andb_true_iff. split; intros [Hin H]; (split; [exact Hin | ]).
  - destruct H as [H1 H2]. split; intros ->; simpl in *; discriminate.
  - destruct H as [H1 H2]. split.
    + destruct v; try reflexivity. congruence.
    + destruct v as [ | | | | s | | ]; try reflexivity. simpl.
      destruct s; [congruence | reflexivity].
Qed.

Lemma clean_present (params : sdict) (k : string) (v : pyval) :
  In (k, v) (clean params) -> present v.
Proof. intros H. apply clean_spec in H. apply H. Qed.

Ltac run_request w url params :=
  unfold _make_api_request, try_except, bind, when, log, emit, requests_get,
    raise_for_status, response_json, ret, raise, classify, outcome, trace;
  destruct (http w url (clean params)) as [f | r]; simpl;
  [ | destruct ((400 <=? status_code r) && (status_code r <? 600)); simpl;
      [ | destruct (json r) as [data | ]; simpl;
          [ destruct (is_dict data && dict_has "error" data); simpl | ] ] ].

Lemma make_api_request_outcome (w : world) (self : NasaSsdCneosApi)
    (url : string) (params : sdict) (name : string) :
  outcome (_make_api_request w self url params name)
  = Ok match classify w url params with inl _ => VNone | inr v => v end.
Proof.
  destruct self as [fu cu dbg]; destruct dbg; run_request w url params;
    reflexivity.
Qed.

Lemma make_api_request_requests (w : world) (self : NasaSsdCneosApi)
    (url : string) (params : sdict) (name : string) :
  requests_of (trace (_make_api_request w self url params name))
  = [(url, clean params)].
Proof.
  destruct self as [fu cu dbg]; destruct dbg; run_request w url params;
    reflexivity.
Qed.

End Transport.

(* ===================================================================== *)
(** * Properties of the table normalizer *)
(* ===================================================================== *)

Module Normalizer.
Import Py Eff Pandas App Spec EffFacts.
Local Open Scope eff_scope.

Lemma quiet_method_get (data : pyval) (key : string) (default : pyval) :
  quiet (method_get data key default).
Proof. destruct data; reflexivity. Qed.

Lemma quiet_method_keys (data : pyval) : quiet (method_keys data).
Proof. destruct data; reflexivity. Qed.

Lemma quiet_records (fields rows : pyval) : quiet (records fields rows).
Proof. unfold records. auto with eff. Qed.

#[export] Hint Resolve quiet_method_get quiet_method_keys quiet_records : eff.

Ltac eff_step :=
  match goal with
  | |- quiet (if ?b then _ else _) => destruct b
  | |- total (if ?b then _ else _) => destruct b
  | |- quiet (match ?x with _ => _ end) => destruct x
  | |- total (match ?x with _ => _ end) => destruct x
  | |- quiet (bind _ _) => apply quiet_bind; [ | intros ]
  | |- total (bind _ _) => apply total_bind; [ | intros ]
  | |- quiet (try_except _ _) => apply quiet_try_except; [ | intros ]
  | |- total (try_except _ _) => apply total_try_except; intros
  | |- _ => solve [auto with eff]
  end.

(** [format_response] sends no request. *)
Lemma format_response_quiet (self : NasaSsdCneosApi) (data : pyval)
    (format_type : string) :
  quiet (format_response self data format_type).
Proof. unfold format_response. repeat eff_step. Qed.

(** [format_response] never raises: whatever happens inside is caught. *)
Lemma format_response_total (self : NasaSsdCneosApi) (data : pyval)
    (format_type : string) :
  total (format_response self data format_type).
Proof. unfold format_response. repeat eff_step. Qed.

Lemma sdict_get_missing (d : sdict) (k : string) (default : pyval) :
  sdict_mem k d = false -> sdict_get d k default = default.
Proof.
  induction d as [ | [k' v] d IH]; simpl; [reflexivity | ].
  intros H. apply orb_false_elim in H. destruct H as [H1 H2].
  rewrite H1. apply IH. exact H2.
Qed.

(** C6. A payload without the keys [fields] and [signature], or whose
    [data] is missing or empty, makes [format_response] return [None]; no
    exception leaves the function. The payload may be any JSON value. *)
Theorem format_response_absent (self : NasaSsdCneosApi) (data : pyval)
    (format_type : string) :
  lacks_table data ->
  outcome (format_response self data format_type) = Ok None.
Proof.
  intros H. unfold format_response.
  destruct (truthy data) eqn:Ht; simpl; [ | reflexivity].
  destruct data as [ | b | n | f | s | l | d]; try reflexivity.
  unfold lacks_table, dict_has, dict_item in H. simpl.
  assert (Hcase : truthy (sdict_get d "fields" (sdict_get d "signature" VNone)) = false
                  \/ truthy (sdict_get d "data" VNone) = false).
  { destruct H as [[H1 H2] | [H | H]].
    - left. rewrite (sdict_get_missing _ _ _ H1), (sdict_get_missing _ _ _ H2).
      reflexivity.
    - right. rewrite (sdict_get_missing _ _ _ H). reflexivity.
    - right. exact H. }
  assert (Hor : negb (truthy (sdict_get d "fields" (sdict_get d "signature" VNone)))
                || negb (truthy (sdict_get d "data" VNone)) = true).
  { destruct Hcase as [-> | ->]; simpl; [reflexivity | apply orb_true_r]. }
  rewrite Hor. reflexivity.
Qed.

(** C6 at a payload that only carries a [count]. *)
Lemma format_response_absent_witness :
  lacks_table (VDict [("count", VInt 0)])
  /\ outcome (format_response NasaSsdCneosApi_init (VDict [("count", VInt 0)])
               "fireballs") = Ok None.
Proof.
  split.
  - left. split; reflexivity.
  - apply format_response_absent. left. split; reflexivity.
Defined.

(** *** Renaming *)

Lemma rename_nil (df : DataFrame) : rename [] df = df.
Proof.
  destruct df as [cols rws]. unfold rename. simpl. rewrite map_id. reflexivity.
Qed.

Lemma format_columns_rename (format_type : string) (df : DataFrame) :
  format_columns format_type df
  = rename (valid_rename (rename_map_of format_type) df) df.
Proof.
  unfold format_columns, rename_map_of.
  destruct (String.eqb format_type "fireballs"); [reflexivity | ].
  destruct (String.eqb format_type "close_approaches"); [reflexivity | ].
  symmetry. apply rename_nil.
Qed.

Lemma rename_label_cases (mapper : list (string * string)) (c : label) :
  (rename_label mapper c = c
   /\ forall k v, In (k, v) mapper -> c <> VStr k)
  \/ exists k v, In (k, v) mapper /\ c = VStr k
                /\ rename_label mapper c = VStr v.
Proof.
  induction mapper as [ | [k v] m IH]; cbn [rename_label In].
  - left. split; [reflexivity | intros k v []].
  - destruct (key_eqb (VStr k) c) eqn:E.
    + right. exists k, v. apply PandasFacts.key_eqb_VStr_l in E.
      split; [left; reflexivity | split; [exact E | reflexivity]].
    + destruct IH as [[Hid Hno] | [k' [v' [Hin [Hc Hr]]]]].
      * left. split; [exact Hid | ].
        intros k' v' [Heq | Hin].
        -- inversion Heq; subst. intros Hc.
           apply PandasFacts.key_eqb_VStr_l in Hc. congruence.
        -- apply Hno with v'. exact Hin.
      * right. exists k', v'. split; [right; exact Hin | split; assumption].
Qed.

(** A renamed column is the old label or a display name. *)
Lemma format_columns_labels (format_type : string) (df : DataFrame) (c : label) :
  In c (columns (format_columns format_type df)) ->
  In c (columns df) \/ In c (display_names format_type).
Proof.
  rewrite format_columns_rename. unfold rename. simpl.
  intros H. apply in_map_iff in H. destruct H as [c0 [Hc Hin]]. subst c.
  destruct (rename_label_cases (valid_rename (rename_map_of format_type) df) c0)
    as [[Hid _] | [k [v [Hkv [_ Hr]]]]].
  - left. rewrite Hid. exact Hin.
  - right. rewrite Hr. unfold valid_rename in Hkv.
    apply filter_In in Hkv. destruct Hkv as [Hkv _].
    unfold display_names. apply in_map_iff. exists (k, v).
    split; [reflexivity | exact Hkv].
Qed.

Lemma len_format_columns (format_type : string) (df : DataFrame) :
  len (format_columns format_type df) = len df.
Proof. rewrite format_columns_rename. reflexivity. Qed.

(** *** Building the table *)

(** When the field list and the rows are there, [format_response] comes
    down to the records, the emptiness test and the renaming. *)
Lemma format_response_records (self : NasaSsdCneosApi) (d : sdict)
    (format_type : string) (ds : list pydict) :
  truthy (field_list d) = true ->
  truthy (sdict_get d "data" VNone) = true ->
  outcome (records (field_list d) (sdict_get d "data" VNone)) = Ok ds ->
  outcome (format_response self (VDict d) format_type)
  = Ok (if empty (DataFrame_of_records ds) then None
        else Some (format_columns format_type (DataFrame_of_records ds))).
Proof.
  intros Hf Hr Hds. unfold format_response.
  assert (Hd : truthy (VDict d) = true).
  { destruct d; [discriminate Hr | reflexivity]. }
  rewrite Hd. simpl. fold (field_list d). rewrite Hf, Hr. simpl.
  destruct (records (field_list d) (sdict_get d "data" VNone)) as [r t].
  simpl in Hds. subst r. simpl.
  destruct (empty (DataFrame_of_records ds)); simpl; [reflexivity | ].
  destruct (debug_mode self); reflexivity.
Qed.

Lemma records_lists (fs : list pyval) (rws : list (list pyval)) :
  outcome (records (VList fs) (VList (map VList rws)))
  = dict_zip_all (VList fs) (map VList rws).
Proof.
  unfold records, lift, bind. simpl.
  destruct (dict_zip_all (VList fs) (map VList rws)); reflexivity.
Qed.

Lemma hashable_names (names : list string) :
  Forall (fun f => hashable f = true) (map VStr names).
Proof. apply Forall_forall. intros f H. apply in_map_iff in H.
  destruct H as [n [<- _]]. reflexivity. Qed.

Lemma Forall2_length_eq {A B} (R : A -> B -> Prop) (l : list A) (l' : list B) :
  Forall2 R l l' -> List.length l = List.length l'.
Proof. induction 1; simpl; congruence. Qed.

(** C1, as amended. For a well-formed payload whose field list is not
    empty, [format_response] returns a table with one row per row of
    [data], and every column is a field name or a display name of the
    kind. *)
Theorem format_response_table (self : NasaSsdCneosApi) (d : sdict)
    (names : list string) (rws : list (list pyval)) (format_type : string) :
  field_list d = VList (map VStr names) ->
  names <> [] ->
  sdict_get d "data" VNone = VList (map VList rws) ->
  rws <> [] ->
  Forall (fun vs => List.length vs = List.length names) rws ->
  exists df,
    outcome (format_response self (VDict d) format_type) = Ok (Some df)
    /\ len df = List.length rws
    /\ forall c, In c (columns df) ->
         In c (map VStr names) \/ In c (display_names format_type).
Proof.
  intros Hfields Hne Hdata Hrws Hlen.
  pose proof (hashable_names names) as Hhash.
  set (fields := map VStr names) in *.
  assert (Hfne : fields <> []).
  { subst fields. destruct names; [congruence | discriminate]. }
  assert (Hflen : List.length fields = List.length names).
  { subst fields. apply length_map. }
  destruct (PandasFacts.dict_zip_all_Ok fields rws Hhash) as [ds [Hds Hall]].
  assert (Hrec : outcome (records (field_list d) (sdict_get d "data" VNone))
                 = Ok ds).
  { rewrite Hfields, Hdata, records_lists. exact Hds. }
  assert (Hkeys : forall c, In c (columns (DataFrame_of_records ds)) ->
                            In c fields).
  { simpl. intros c Hc.
    destruct (PandasFacts.union_keys_sound ds c Hc) as [d0 [Hd0 Hk]].
    clear - Hall Hd0 Hk Hhash. induction Hall as [ | vs d1 rws ds H1 Hall IH].
    - destruct Hd0.
    - destruct Hd0 as [-> | Hd0]; [ | apply IH; exact Hd0].
      destruct (PandasFacts.dict_zip_Ok fields vs Hhash) as [d' [Hd' [Hin _]]].
      rewrite H1 in Hd'. inversion Hd'; subst. apply Hin. exact Hk. }
  assert (Hnonempty : empty (DataFrame_of_records ds) = false).
  { destruct Hall as [ | vs d1 rws ds H1 Hall]; [congruence | ].
    destruct (PandasFacts.dict_zip_Ok fields vs Hhash) as [d' [Hd' [_ Hd1]]].
    rewrite H1 in Hd'. inversion Hd'; subst d'.
    assert (Hvs : vs <> []).
    { inversion Hlen as [ | x l Hx Hl]; subst. intros ->. simpl in Hx.
      rewrite <- Hflen in Hx. destruct fields; [congruence | discriminate]. }
    pose proof (PandasFacts.union_keys_nonempty d1 ds (Hd1 Hfne Hvs)) as Hcols.
    unfold empty, DataFrame_of_records. simpl.
    destruct (union_keys (d1 :: ds)); [congruence | reflexivity]. }
  exists (format_columns format_type (DataFrame_of_records ds)).
  split; [ | split].
  - rewrite (format_response_records self d format_type ds).
    + rewrite Hnonempty. reflexivity.
    + rewrite Hfields. destruct fields; [congruence | reflexivity].
    + rewrite Hdata. destruct rws; [congruence | reflexivity].
    + exact Hrec.
  - rewrite len_format_columns, PandasFacts.len_DataFrame_of_records.
    symmetry. eapply Forall2_length_eq. exact Hall.
  - intros c Hc. destruct (format_columns_labels _ _ _ Hc) as [H | H].
    + left. apply Hkeys. exact H.
    + right. exact H.
Qed.

Lemma format_response_table_witness :
  exists df,
    outcome (format_response NasaSsdCneosApi_init (VDict fireball_payload)
               "fireballs") = Ok (Some df)
    /\ len df = 1%nat
    /\ forall c, In c (columns df) ->
         In c [VStr "date"; VStr "energy"; VStr "lat"; VStr "lon"]
         \/ In c (display_names "fireballs").
Proof.
  apply (format_response_table NasaSsdCneosApi_init fireball_payload
           ["date"; "energy"; "lat"; "lon"]
           [[VStr "2023-01-01T00:00:00"; VStr "0.5"; VInt 10; VInt (-20)]]
           "fireballs").
  - reflexivity.
  - discriminate.
  - reflexivity.
  - discriminate.
  - repeat constructor.
Defined.

(** The table of that scenario. *)
Example format_response_scenario :
  outcome (format_response NasaSsdCneosApi_init (VDict fireball_payload)
             "fireballs")
  = Ok (Some (mkDataFrame
                [VStr "Date/Time"; VStr "Energy (kt)"; VStr "Latitude";
                 VStr "Longitude"]
                [[Some (VStr "2023-01-01T00:00:00"); Some (VStr "0.5");
                  Some (VInt 10); Some (VInt (-20))]])).
Proof. reflexivity. Qed.

(** C1, as stated, fails where the field list is empty: the payload
    [{fields: [], data: [[]]}] is well formed, every row is as long as the
    field list, and [format_response] returns [None] instead of a table
    with one row. *)
Lemma format_response_table_counterexample :
  well_formed (VDict [("fields", VList []); ("data", VList [VList []])])
  /\ outcome (format_response NasaSsdCneosApi_init
               (VDict [("fields", VList []); ("data", VList [VList []])])
               "fireballs") = Ok None.
Proof.
  split; [ | reflexivity].
  exists [("fields", VList []); ("data", VList [VList []])], [], [[]].
  repeat split; try reflexivity; try discriminate; repeat constructor.
Qed.

(** *** Renaming twice *)

(** No display name is a source key, for either kind. *)
Lemma display_not_source (format_type : string) (c : label) :
  In c (display_names format_type) -> ~ In c (source_keys format_type).
Proof.
  unfold display_names, source_keys, rename_map_of.
  destruct (String.eqb format_type "fireballs");
    [ | destruct (String.eqb format_type "close_approaches")];
    simpl; intros H1 H2;
    repeat (destruct H1 as [H1 | H1]; [subst c | ]); try contradiction;
    repeat (destruct H2 as [H2 | H2]; [discriminate H2 | ]); contradiction.
Qed.

(** A table none of whose columns is a source key is left as it is. *)
Lemma format_columns_fixed (format_type : string) (df : DataFrame) :
  (forall c, In c (columns df) -> ~ In c (source_keys format_type)) ->
  format_columns format_type df = df.
Proof.
  intros H. rewrite format_columns_rename. destruct df as [cols rws].
  unfold rename. simpl in *. f_equal.
  transitivity (map (fun c : label => c) cols); [ | apply map_id].
  apply map_ext_in. intros c Hc.
  destruct (rename_label_cases
              (valid_rename (rename_map_of format_type) (mkDataFrame cols rws)) c)
    as [[Hid _] | [k [v [Hkv [Heq _]]]]]; [exact Hid | ].
  exfalso. apply (H c Hc). unfold valid_rename in Hkv.
  apply filter_In in Hkv. destruct Hkv as [Hkv _]. subst c.
  unfold source_keys. apply in_map_iff. exists (k, v).
  split; [reflexivity | exact Hkv].
Qed.

(** After renaming, no column is a source key any more. *)
Lemma format_columns_no_source (format_type : string) (df : DataFrame) (c : label) :
  In c (columns (format_columns format_type df)) ->
  ~ In c (source_keys format_type).
Proof.
  rewrite format_columns_rename. unfold rename. simpl.
  intros H. apply in_map_iff in H. destruct H as [c0 [Hc Hin]]. subst c.
  destruct (rename_label_cases (valid_rename (rename_map_of format_type) df) c0)
    as [[Hid Hno] | [k [v [Hkv [_ Hr]]]]].
  - rewrite Hid. unfold source_keys. intros Hs. apply in_map_iff in Hs.
    destruct Hs as [[k v] [Hk Hkv]]. simpl in Hk.
    apply (Hno k v); [ | symmetry; exact Hk].
    unfold valid_rename. apply filter_In. split; [exact Hkv | ].
    simpl. unfold has_column. apply PandasFacts.label_mem_VStr.
    rewrite Hk. exact Hin.
  - rewrite Hr. apply display_not_source. unfold valid_rename in Hkv.
    apply filter_In in Hkv. destruct Hkv as [Hkv _].
    unfold display_names. apply in_map_iff. exists (k, v).
    split; [reflexivity | exact Hkv].
Qed.

(** C7. Renaming is idempotent: a table whose columns are display names,
    or any labels that are not source keys of the kind, comes back
    unchanged; hence renaming twice is renaming once. *)
Theorem format_columns_idempotent (format_type : string) (df : DataFrame) :
  format_columns format_type (format_columns format_type df)
  = format_columns format_type df
  /\ ((forall c, In c (columns df) ->
         In c (display_names format_type)
         \/ ~ In c (source_keys format_type)) ->
      format_columns format_type df = df).
Proof.
  split.
  - apply format_columns_fixed. intros c. apply format_columns_no_source.
  - intros H. apply format_columns_fixed. intros c Hc.
    destruct (H c Hc) as [Hd | Hn]; [apply display_not_source; exact Hd | exact Hn].
Qed.

(** C7 on a table that already carries display names and one unknown
    column. *)
Lemma format_columns_idempotent_witness :
  format_columns "fireballs"
    (mkDataFrame [VStr "Date/Time"; VStr "Latitude"; VStr "note"]
                 [[Some (VStr "2023-01-01"); Some (VInt 10); None]])
  = mkDataFrame [VStr "Date/Time"; VStr "Latitude"; VStr "note"]
                [[Some (VStr "2023-01-01"); Some (VInt 10); None]].
Proof.
  apply (format_columns_idempotent "fireballs"
           (mkDataFrame [VStr "Date/Time"; VStr "Latitude"; VStr "note"]
                        [[Some (VStr "2023-01-01"); Some (VInt 10); None]])).
  simpl. intros c [<- | [<- | [<- | []]]].
  - left. simpl. tauto.
  - left. simpl. tauto.
  - right. simpl. intros H.
    repeat (destruct H as [H | H]; [discriminate H | ]). contradiction.
Defined.

(** *** Rows that are longer or shorter than the field list *)

Lemma dict_get_set_VStr (d : pydict) (k n : string) (v : pyval) :
  dict_get (dict_set d (VStr k) v) (VStr n)
  = if String.eqb k n then Some v else dict_get d (VStr n).
Proof.
  induction d as [ | [k' v'] d IH]; cbn [dict_set dict_get].
  - rewrite PandasFacts.key_eqb_VStr. reflexivity.
  - destruct (key_eqb k' (VStr k)) eqn:E; cbn [dict_get].
    + apply PandasFacts.key_eqb_VStr_r in E. subst k'.
      rewrite PandasFacts.key_eqb_VStr. destruct (String.eqb k n); reflexivity.
    + rewrite IH. destruct (key_eqb k' (VStr n)) eqn:E'; [ | reflexivity].
      apply PandasFacts.key_eqb_VStr_r in E'. subst k'.
      rewrite PandasFacts.key_eqb_VStr in E. rewrite String.eqb_sym, E.
      reflexivity.
Qed.

Lemma dict_of_pairs_lookup (names : list string) (vs : list pyval)
    (acc : pydict) :
  exists d, dict_of_pairs (combine (map VStr names) vs) acc = Ok d
    /\ forall n, dict_get d (VStr n)
         = fold_left (fun a p => if String.eqb (fst p) n then Some (snd p) else a)
                     (combine names vs) (dict_get acc (VStr n)).
Proof.
  revert vs acc. induction names as [ | k names IH]; intros vs acc.
  - exists acc. split; reflexivity.
  - destruct vs as [ | v vs].
    + exists acc. split; reflexivity.
    + destruct (IH vs (dict_set acc (VStr k) v)) as [d [Hd Hget]].
      exists d. split; [exact Hd | ].
      intros n. rewrite Hget, dict_get_set_VStr. reflexivity.
Qed.

(** The row dictionary holds what [zip_lookup] says. *)
Lemma dict_zip_lookup (names : list string) (vs : list pyval) (d : pydict) :
  dict_zip (VList (map VStr names)) (VList vs) = Ok d ->
  forall n, dict_get d (VStr n) = zip_lookup names vs n.
Proof.
  unfold dict_zip. simpl. intros H n.
  destruct (dict_of_pairs_lookup names vs []) as [d' [Hd' Hget]].
  rewrite H in Hd'. inversion Hd'; subst d'. apply Hget.
Qed.

Lemma fold_lookup_None (n : string) (ps : list (string * pyval))
    (acc : option pyval) :
  fold_left (fun a p => if String.eqb (fst p) n then Some (snd p) else a) ps acc
  = None
  <-> acc = None /\ ~ In n (map fst ps).
Proof.
  revert acc. induction ps as [ | [k v] ps IH]; intros acc; simpl.
  - tauto.
  - rewrite IH. destruct (String.eqb k n) eqn:E.
    + apply String.eqb_eq in E. split; [intros [H _]; discriminate | ].
      intros [_ H]. exfalso. apply H. left. exact E.
    + apply String.eqb_neq in E. tauto.
Qed.

Lemma map_fst_combine {A B} (l : list A) (l' : list B) :
  map fst (combine l l') = firstn (List.length l') l.
Proof.
  revert l'. induction l as [ | a l IH]; intros [ | b l']; simpl;
    try reflexivity.
  rewrite IH. reflexivity.
Qed.

(** A name gets no value from a row exactly when it is not among the
    fields the row reaches: the columns beyond a short row are absent. *)
Lemma zip_lookup_None (names : list string) (vs : list pyval) (n : string) :
  zip_lookup names vs n = None
  <-> ~ In n (firstn (List.length vs) names).
Proof.
  unfold zip_lookup. rewrite fold_lookup_None, map_fst_combine. tauto.
Qed.

(** The values of a row beyond the field list play no part. *)
Lemma zip_lookup_truncate (names : list string) (vs : list pyval) (n : string) :
  zip_lookup names vs n
  = zip_lookup names (firstn (List.length names) vs) n.
Proof. unfold zip_lookup. rewrite <- combine_firstn_l. reflexivity. Qed.

Lemma dict_get_In (d : pydict) (n : string) :
  dict_get d (VStr n) <> None <-> In (VStr n) (map fst d).
Proof.
  induction d as [ | [k v] d IH]; cbn [dict_get map fst In].
  - tauto.
  - destruct (key_eqb k (VStr n)) eqn:E.
    + apply PandasFacts.key_eqb_VStr_r in E. split; [left; exact E | discriminate].
    + rewrite IH. split; [tauto | ]. intros [H | H]; [ | exact H].
      subst k. rewrite PandasFacts.key_eqb_VStr, String.eqb_refl in E.
      discriminate.
Qed.

Lemma add_keys_complete (d : pydict) (cols : list label) (n : string) :
  In (VStr n) (map fst d) -> In (VStr n) (add_keys cols d).
Proof.
  unfold add_keys. revert cols.
  induction d as [ | [k v] d IH]; intros cols; cbn [map fst In fold_left];
    [intros [] | ].
  intros [H | H]; [ | apply IH; exact H]. subst k.
  match goal with
  | |- In _ (fold_left _ d ?c) =>
      destruct (PandasFacts.add_keys_extends d c) as [l [Hl _]];
      unfold add_keys in Hl; rewrite Hl
  end.
  apply in_or_app. left.
  destruct (label_mem (VStr n) cols) eqn:E.
  - apply PandasFacts.label_mem_VStr. exact E.
  - apply in_or_app. right. left. reflexivity.
Qed.

(** Every string key of a record is a column. *)
Lemma union_keys_complete (ds : list pydict) (d : pydict) (n : string) :
  In d ds -> In (VStr n) (map fst d) -> In (VStr n) (union_keys ds).
Proof.
  unfold union_keys. generalize (@nil label) as cols.
  induction ds as [ | d0 ds IH]; intros cols Hd Hn; [destruct Hd | ].
  simpl. destruct Hd as [-> | Hd]; [ | apply IH; assumption].
  destruct (PandasFacts.fold_add_keys_extends ds (add_keys cols d))
    as [l [Hl _]].
  rewrite Hl. apply in_or_app. left. apply add_keys_complete. exact Hn.
Qed.

Lemma Forall2_In_r {A B} (R : A -> B -> Prop) (l : list A) (l' : list B) (b : B) :
  Forall2 R l l' -> In b l' -> exists a, In a l /\ R a b.
Proof.
  induction 1 as [ | x y l l' Hxy Hall IH]; intros Hin; [destruct Hin | ].
  destruct Hin as [-> | Hin].
  - exists x. split; [left; reflexivity | exact Hxy].
  - destruct (IH Hin) as [a [Ha HR]]. exists a. split; [right; exact Ha | exact HR].
Qed.

Lemma Forall2_In_l {A B} (R : A -> B -> Prop) (l : list A) (l' : list B) (a : A) :
  Forall2 R l l' -> In a l -> exists b, In b l' /\ R a b.
Proof.
  induction 1 as [ | x y l l' Hxy Hall IH]; intros Hin; [destruct Hin | ].
  destruct Hin as [-> | Hin].
  - exists y. split; [left; reflexivity | exact Hxy].
  - destruct (IH Hin) as [b [Hb HR]]. exists b. split; [right; exact Hb | exact HR].
Qed.

Lemma rows_of_records (names : list string) (rws : list (list pyval))
    (ds : list pydict) (cols : list label) :
  Forall2 (fun vs d => dict_zip (VList (map VStr names)) (VList vs) = Ok d)
          rws ds ->
  (forall c, In c cols -> exists n, c = VStr n) ->
  map (fun d => map (dict_get d) cols) ds
  = map (fun vs => map (cell names vs) cols) rws.
Proof.
  intros Hall Hcols. induction Hall as [ | vs d rws ds Hd Hall IH];
    [reflexivity | ].
  simpl. rewrite IH. f_equal. apply map_ext_in. intros c Hc.
  destruct (Hcols c Hc) as [n ->]. simpl.
  apply dict_zip_lookup. exact Hd.
Qed.

(** C10, as amended. With a non-empty list of field names and rows of any
    lengths, at least one of them not empty, [format_response] returns a
    table with one record per row. The columns are the names some row
    reaches; the cell of a row under a name is the value zipped with it,
    absent where the row is too short to reach the name; values beyond
    the field list are dropped. *)
Theorem format_response_ragged (self : NasaSsdCneosApi) (d : sdict)
    (names : list string) (rws : list (list pyval)) (format_type : string) :
  field_list d = VList (map VStr names) ->
  names <> [] ->
  sdict_get d "data" VNone = VList (map VList rws) ->
  Exists (fun vs => vs <> []) rws ->
  exists df0,
    outcome (format_response self (VDict d) format_type)
    = Ok (Some (format_columns format_type df0))
    /\ (forall c, In c (columns df0) <->
          exists n vs, c = VStr n /\ In vs rws
                       /\ In n (firstn (List.length vs) names))
    /\ rows (format_columns format_type df0)
       = map (fun vs => map (cell names vs) (columns df0)) rws
    /\ (forall vs n, zip_lookup names vs n = None
                     <-> ~ In n (firstn (List.length vs) names))
    /\ (forall vs n, zip_lookup names vs n
                     = zip_lookup names (firstn (List.length names) vs) n).
Proof.
  intros Hfields Hne Hdata Hex.
  pose proof (hashable_names names) as Hhash.
  destruct (PandasFacts.dict_zip_all_Ok (map VStr names) rws Hhash)
    as [ds [Hds Hall]].
  assert (Hrec : outcome (records (field_list d) (sdict_get d "data" VNone))
                 = Ok ds).
  { rewrite Hfields, Hdata, records_lists. exact Hds. }
  assert (Hcols : forall c, In c (union_keys ds) <->
            exists n vs, c = VStr n /\ In vs rws
                         /\ In n (firstn (List.length vs) names)).
  { intros c. split.
    - intros Hc.
      destruct (PandasFacts.union_keys_sound ds c Hc) as [d0 [Hd0 Hk]].
      destruct (Forall2_In_r _ _ _ _ Hall Hd0) as [vs [Hvs Hzip]].
      destruct (PandasFacts.dict_zip_Ok (map VStr names) vs Hhash)
        as [d' [Hd' [Hin _]]].
      rewrite Hzip in Hd'. inversion Hd'; subst d'.
      pose proof (Hin c Hk) as Hcn. apply in_map_iff in Hcn.
      destruct Hcn as [n [<- _]]. exists n, vs.
      split; [reflexivity | split; [exact Hvs | ]].
      apply dict_get_In in Hk. rewrite (dict_zip_lookup _ _ _ Hzip) in Hk.
      destruct (in_dec string_dec n (firstn (List.length vs) names))
        as [Hyes | Hno]; [exact Hyes | ].
      exfalso. apply Hk. apply zip_lookup_None. exact Hno.
    - intros [n [vs [-> [Hvs Hn]]]].
      destruct (Forall2_In_l _ _ _ _ Hall Hvs) as [d0 [Hd0 Hzip]].
      apply (union_keys_complete ds d0 n Hd0). apply dict_get_In.
      rewrite (dict_zip_lookup _ _ _ Hzip). intros Hnone.
      apply zip_lookup_None in Hnone. exact (Hnone Hn). }
  assert (Hnonempty : empty (DataFrame_of_records ds) = false).
  { apply Exists_exists in Hex. destruct Hex as [vs [Hvs Hvne]].
    assert (Hin : exists n, In (VStr n) (union_keys ds)).
    { destruct names as [ | n0 names]; [congruence | ].
      destruct vs as [ | v vs]; [congruence | ].
      exists n0. apply Hcols. exists n0, (v :: vs).
      split; [reflexivity | split; [exact Hvs | left; reflexivity]]. }
    destruct Hin as [n Hin].
    destruct (Forall2_In_l _ _ _ _ Hall Hvs) as [d0 [Hd0 _]].
    unfold empty, DataFrame_of_records. simpl.
    destruct (union_keys ds); [destruct Hin | ].
    destruct ds; [destruct Hd0 | reflexivity]. }
  exists (DataFrame_of_records ds).
  split; [ | split; [ | split; [ | split]]].
  - rewrite (format_response_records self d format_type ds).
    + rewrite Hnonempty. reflexivity.
    + rewrite Hfields. destruct names; [congruence | reflexivity].
    + rewrite Hdata. apply Exists_exists in Hex. destruct Hex as [vs [Hvs _]].
      destruct rws; [destruct Hvs | reflexivity].
    + exact Hrec.
  - exact Hcols.
  - rewrite format_columns_rename. simpl.
    apply rows_of_records; [exact Hall | ].
    intros c Hc. apply Hcols in Hc. destruct Hc as [n [_ [-> _]]].
    exists n. reflexivity.
  - intros vs n. apply zip_lookup_None.
  - intros vs n. apply zip_lookup_truncate.
Qed.

Lemma format_response_ragged_witness :
  exists df0,
    outcome (format_response NasaSsdCneosApi_init (VDict ragged_payload) "other")
    = Ok (Some (format_columns "other" df0))
    /\ (forall c, In c (columns df0) <->
          exists n vs, c = VStr n
            /\ In vs [[VInt 1]; [VInt 2; VInt 3]; [VInt 4; VInt 5; VInt 6]]
            /\ In n (firstn (List.length vs) ["a"; "b"]))
    /\ rows (format_columns "other" df0)
       = map (fun vs => map (cell ["a"; "b"] vs) (columns df0))
             [[VInt 1]; [VInt 2; VInt 3]; [VInt 4; VInt 5; VInt 6]]
    /\ (forall vs n, zip_lookup ["a"; "b"] vs n = None
                     <-> ~ In n (firstn (List.length vs) ["a"; "b"]))
    /\ (forall vs n, zip_lookup ["a"; "b"] vs n
                     = zip_lookup ["a"; "b"] (firstn 2 vs) n).
Proof.
  apply (format_response_ragged NasaSsdCneosApi_init ragged_payload
           ["a"; "b"] [[VInt 1]; [VInt 2; VInt 3]; [VInt 4; VInt 5; VInt 6]]
           "other").
  - reflexivity.
  - discriminate.
  - reflexivity.
  - constructor. discriminate.
Defined.

(** What the table of [ragged_payload] looks like. *)
Example format_response_ragged_run :
  outcome (format_response NasaSsdCneosApi_init (VDict ragged_payload) "other")
  = Ok (Some (mkDataFrame [VStr "a"; VStr "b"]
                [[Some (VInt 1); None];
                 [Some (VInt 2); Some (VInt 3)];
                 [Some (VInt 4); Some (VInt 5)]])).
Proof. reflexivity. Qed.

(** C10, as stated, fails where every row is empty: with the field list
    [[a]] and the single row [[]], shorter than the field list, no record
    comes back at all; [format_response] returns [None]. *)
Lemma format_response_ragged_counterexample :
  field_list [("fields", VList [VStr "a"]); ("data", VList [VList []])]
  = VList [VStr "a"]
  /\ sdict_get [("fields", VList [VStr "a"]); ("data", VList [VList []])]
       "data" VNone = VList [VList []]
  /\ outcome (format_response NasaSsdCneosApi_init
               (VDict [("fields", VList [VStr "a"]); ("data", VList [VList []])])
               "fireballs") = Ok None.
Proof. repeat split. Qed.

End Normalizer.

(* ===================================================================== *)
(** * Properties of the callbacks *)
(* ===================================================================== *)

Module Callbacks.
Import Py Eff Pandas App Spec EffFacts Transport Normalizer.
Local Open Scope eff_scope.

(** ** Generalities *)

Lemma try_except_id {A} (m : M A) (h : exn -> M A) :
  total m -> try_except m h = m.
Proof.
  intros [a Ha]. destruct m as [[a' | e] t]; [reflexivity | discriminate Ha].
Qed.

Lemma run_bind {A B} (m : M A) (f : A -> M B) (a : A) :
  outcome m = Ok a ->
  bind m f = (outcome (f a), (trace m ++ trace (f a))%list).
Proof.
  intros H. rewrite (surjective_run m), H. apply bind_Ok. reflexivity.
Qed.

Lemma total_method_get_dict (d : sdict) (key : string) (default : pyval) :
  total (method_get (VDict d) key default).
Proof. eexists. reflexivity. Qed.

Lemma make_api_request_total (w : world) (self : NasaSsdCneosApi)
    (url : string) (params : sdict) (name : string) :
  total (_make_api_request w self url params name).
Proof. eexists. apply make_api_request_outcome. Qed.

Lemma quiet_px (w : world) (df : DataFrame) (spec : ChartSpec) :
  quiet (px w df spec).
Proof. unfold px. destruct (plotly_accepts w _); reflexivity. Qed.

#[export] Hint Resolve make_api_request_total format_response_total
  format_response_quiet quiet_px : eff.

(** ** The chart steps *)

Lemma fireball_chart_total (w : world) (df : DataFrame) :
  total (fireball_chart w df).
Proof. unfold fireball_chart. repeat eff_step. Qed.

Lemma fireball_chart_quiet (w : world) (df : DataFrame) :
  quiet (fireball_chart w df).
Proof. unfold fireball_chart. repeat eff_step. Qed.

Lemma close_approach_chart_total (w : world) (df : DataFrame) :
  total (close_approach_chart w df).
Proof. unfold close_approach_chart. repeat eff_step. Qed.

Lemma close_approach_chart_quiet (w : world) (df : DataFrame) :
  quiet (close_approach_chart w df).
Proof. unfold close_approach_chart. repeat eff_step. Qed.

#[export] Hint Resolve fireball_chart_total fireball_chart_quiet
  close_approach_chart_total close_approach_chart_quiet : eff.

(** ** Reading the numeric inputs *)

Lemma float_or_none_parsed (x : text_input) :
  float_or_none x
  = (match parsed x with inl msg => Raise (ValueError msg) | inr v => Ok v end,
     []).
Proof.
  unfold float_or_none, parsed. destruct x as [s | ]; [ | reflexivity].
  destruct (given (Some s)); [ | reflexivity].
  destruct (py_float s); reflexivity.
Qed.

Lemma bind_ret_l {A B} (a : A) (f : A -> M B) : bind (Ok a, []) f = f a.
Proof. unfold bind. destruct (f a); reflexivity. Qed.

Lemma run_eta {A} (m : M A) : (let (r, t) := m in (r, t)) = m.
Proof. destruct m; reflexivity. Qed.

(** ** fetch_fireballs *)

Lemma fireballs_render_total (w : world) (data : pyval) :
  total (fireballs_render w data).
Proof. unfold fireballs_render. repeat eff_step. Qed.

Lemma fireballs_render_quiet (w : world) (data : pyval) :
  quiet (fireballs_render w data).
Proof. unfold fireballs_render. repeat eff_step. Qed.

Lemma get_fireballs_request (w : world) (self : NasaSsdCneosApi)
    (limit date_min energy_min : pyval) :
  get_fireballs w self limit date_min energy_min
  = _make_api_request w self (fireball_url self)
      (fireball_params limit date_min energy_min) "Fireball API".
Proof. reflexivity. Qed.

(** An energy that does not parse: the message, and nothing else
    happens. *)
Lemma fetch_fireballs_invalid (w : world) (limit : Z)
    (date_min energy_min : text_input) (msg : string) :
  parsed energy_min = inl msg ->
  fetch_fireballs w limit date_min energy_min
  = (Ok (OutMsg (invalid_energy_message energy_min), None), []).
Proof.
  intros H. unfold fetch_fireballs. rewrite float_or_none_parsed, H.
  reflexivity.
Qed.

(** An energy that parses (or none at all): the request goes out and its
    answer is rendered. *)
Lemma fetch_fireballs_valid (w : world) (limit : Z)
    (date_min energy_min : text_input) (e : pyval) :
  parsed energy_min = inr e ->
  fetch_fireballs w limit date_min energy_min
  = bind (get_fireballs w NasaSsdCneosApi_init (VInt limit)
            (strip_or_none date_min) e)
         (fireballs_render w).
Proof.
  intros H. unfold fetch_fireballs. rewrite float_or_none_parsed, H.
  cbn [bind try_except ret app]. rewrite run_eta.
  rewrite try_except_id; [reflexivity | ].
  apply (total_bind _ (fireballs_render w)).
  - rewrite get_fireballs_request. auto with eff.
  - apply fireballs_render_total.
Qed.

(** ** fetch_close_approaches *)

Lemma close_approaches_render_total (w : world) (data : pyval) :
  total (close_approaches_render w data).
Proof. unfold close_approaches_render. repeat eff_step. Qed.

Lemma close_approaches_render_quiet (w : world) (data : pyval) :
  quiet (close_approaches_render w data).
Proof. unfold close_approaches_render. repeat eff_step. Qed.

Lemma get_close_approaches_request (w : world) (self : NasaSsdCneosApi)
    (dist_max date_min date_max h_min h_max v_inf_min v_inf_max limit : pyval) :
  get_close_approaches w self dist_max date_min date_max h_min h_max
    v_inf_min v_inf_max limit
  = _make_api_request w self (ca_url self)
      (close_approach_params dist_max date_min date_max h_min h_max
         v_inf_min v_inf_max limit)
      "Close Approaches API".
Proof. reflexivity. Qed.

(** A numeric input that does not parse: the message, and nothing else
    happens. *)
Lemma fetch_close_approaches_invalid (w : world) (limit : Z)
    (dist_max date_min date_max h_min h_max v_inf_min v_inf_max : text_input)
    (ve : string) :
  conversions dist_max h_min h_max v_inf_min v_inf_max = inl ve ->
  fetch_close_approaches w limit dist_max date_min date_max h_min h_max
    v_inf_min v_inf_max
  = (Ok (OutMsg (invalid_numeric_message ve), None), []).
Proof.
  intros H. unfold fetch_close_approaches, conversions in *.
  rewrite !float_or_none_parsed.
  destruct (parsed dist_max); [inversion H; reflexivity | ].
  destruct (parsed h_min); [inversion H; reflexivity | ].
  destruct (parsed h_max); [inversion H; reflexivity | ].
  destruct (parsed v_inf_min); [inversion H; reflexivity | ].
  destruct (parsed v_inf_max); [inversion H; reflexivity | discriminate H].
Qed.

(** All numeric inputs parse: the request goes out and its answer is
    rendered. *)
Lemma fetch_close_approaches_valid (w : world) (limit : Z)
    (dist_max date_min date_max h_min h_max v_inf_min v_inf_max : text_input)
    (a b c d e : pyval) :
  conversions dist_max h_min h_max v_inf_min v_inf_max = inr (a, b, c, d, e) ->
  fetch_close_approaches w limit dist_max date_min date_max h_min h_max
    v_inf_min v_inf_max
  = bind (get_close_approaches w NasaSsdCneosApi_init a
            (strip_or_none date_min) (strip_or_none date_max) b c d e
            (VInt limit))
         (close_approaches_render w).
Proof.
  intros H. unfold fetch_close_approaches, conversions in *.
  rewrite !float_or_none_parsed.
  destruct (parsed dist_max); [discriminate H | ].
  destruct (parsed h_min); [discriminate H | ].
  destruct (parsed h_max); [discriminate H | ].
  destruct (parsed v_inf_min); [discriminate H | ].
  destruct (parsed v_inf_max); [discriminate H | ].
  inversion H; subst.
  cbn [bind try_except ret app]. rewrite run_eta.
  rewrite try_except_id; [reflexivity | ].
  apply (total_bind _ (close_approaches_render w)).
  - rewrite get_close_approaches_request. auto with eff.
  - apply close_approaches_render_total.
Qed.

(** ** What the callbacks send and return *)

Lemma request_then (w : world) (url : string) (params : sdict)
    (name : string) (k : pyval -> M result) :
  quiet (k (fetched w url params)) ->
  outcome (bind (_make_api_request w api url params name) k)
  = outcome (k (fetched w url params))
  /\ requests_of (trace (bind (_make_api_request w api url params name) k))
     = [(url, clean params)].
Proof.
  intros Hq.
  rewrite (run_bind _ k (fetched w url params)
             (make_api_request_outcome w api url params name)).
  split; [reflexivity | ].
  unfold trace at 1. simpl. rewrite requests_of_app, make_api_request_requests.
  unfold quiet in Hq. rewrite Hq. reflexivity.
Qed.

Lemma fetch_fireballs_run (w : world) (limit : Z)
    (date_min energy_min : text_input) (e : pyval) :
  parsed energy_min = inr e ->
  outcome (fetch_fireballs w limit date_min energy_min)
  = outcome (fireballs_render w
               (fetched w (fireball_url api)
                  (fireball_request limit date_min e)))
  /\ requests_of (trace (fetch_fireballs w limit date_min energy_min))
     = [(fireball_url api, clean (fireball_request limit date_min e))].
Proof.
  intros H. rewrite (fetch_fireballs_valid w limit date_min energy_min e H).
  rewrite get_fireballs_request. apply request_then.
  apply fireballs_render_quiet.
Qed.

Lemma fetch_close_approaches_run (w : world) (limit : Z)
    (dist_max date_min date_max h_min h_max v_inf_min v_inf_max : text_input)
    (a b c d e : pyval) :
  conversions dist_max h_min h_max v_inf_min v_inf_max = inr (a, b, c, d, e) ->
  outcome (fetch_close_approaches w limit dist_max date_min date_max h_min
             h_max v_inf_min v_inf_max)
  = outcome (close_approaches_render w
               (fetched w (ca_url api)
                  (close_approach_request limit date_min date_max a b c d e)))
  /\ requests_of (trace (fetch_close_approaches w limit dist_max date_min
                           date_max h_min h_max v_inf_min v_inf_max))
     = [(ca_url api,
         clean (close_approach_request limit date_min date_max a b c d e))].
Proof.
  intros H.
  rewrite (fetch_close_approaches_valid w limit dist_max date_min date_max
             h_min h_max v_inf_min v_inf_max a b c d e H).
  rewrite get_close_approaches_request. apply request_then.
  apply close_approaches_render_quiet.
Qed.

(** C3. What [_make_api_request] transmits is the cleaned mapping, in
    which no key is bound to [None] or to the empty string; so it is for
    every request the two callbacks send, whatever the user typed. *)
Theorem transmitted_params_present (w : world) (self : NasaSsdCneosApi)
    (url : string) (params : sdict) (name : string) (limit : Z)
    (date_min date_max energy_min dist_max h_min h_max v_inf_min v_inf_max
       : text_input) :
  requests_of (trace (_make_api_request w self url params name))
  = [(url, clean params)]
  /\ (forall k v, In (k, v) (clean params) <-> In (k, v) params /\ present v)
  /\ Forall clean_request
       (requests_of (trace (fetch_fireballs w limit date_min energy_min)))
  /\ Forall clean_request
       (requests_of (trace (fetch_close_approaches w limit dist_max date_min
                              date_max h_min h_max v_inf_min v_inf_max))).
Proof.
  assert (Hclean : forall u p, clean_request (u, clean p)).
  { intros u p k v Hin. eapply clean_present. exact Hin. }
  split; [apply make_api_request_requests | ].
  split; [apply clean_spec | ]. split.
  - destruct (parsed energy_min) as [msg | e] eqn:E.
    + rewrite (fetch_fireballs_invalid _ _ _ _ msg E). constructor.
    + destruct (fetch_fireballs_run w limit date_min energy_min e E) as [_ ->].
      constructor; [apply Hclean | constructor].
  - destruct (conversions dist_max h_min h_max v_inf_min v_inf_max)
      as [ve | [[[[a b] c] d] e]] eqn:E.
    + rewrite (fetch_close_approaches_invalid _ _ _ _ _ _ _ _ _ ve E).
      constructor.
    + destruct (fetch_close_approaches_run w limit dist_max date_min date_max
                  h_min h_max v_inf_min v_inf_max a b c d e E) as [_ ->].
      constructor; [apply Hclean | constructor].
Qed.

(** C3 at a fireball request with a blank date and an energy. *)
Lemma transmitted_params_present_witness :
  requests_of (trace (fetch_fireballs offline 10 (Some "   ") (Some "0.5")))
  = [("https://ssd-api.jpl.nasa.gov/fireball.api",
      [("limit", VInt 10);
       ("energy-min", VFloat (S754_finite false 4503599627370496 (-53)))])]
  /\ Forall clean_request
       (requests_of (trace (fetch_fireballs offline 10 (Some "   ")
                              (Some "0.5")))).
Proof.
  split; [vm_compute; reflexivity | ].
  apply (transmitted_params_present offline api (fireball_url api) []
           "Fireball API" 10 (Some "   ") None (Some "0.5")
           None None None None None).
Defined.

(** The close-approach request of a user who filled in nothing but a
    date with blanks: only [limit] and [sort] remain. *)
Example transmitted_params_run :
  requests_of (trace (fetch_close_approaches
                        (mkWorld (fun _ _ => inl ConnectionError) (fun _ => true))
                        10 (Some EmptyString) (Some "  ") None None None None None))
  = [("https://ssd-api.jpl.nasa.gov/cad.api",
      [("limit", VInt 10); ("sort", VStr "date")])].
Proof. reflexivity. Qed.

(** ** Failures of the transport *)

Lemma make_api_request_log (w : world) (self : NasaSsdCneosApi)
    (url : string) (params : sdict) (name : string) (k : failure) :
  classify w url params = inl k ->
  exists detail,
    In (Log ERROR (FText name :: FText (log_tag k) :: detail))
       (trace (_make_api_request w self url params name)).
Proof.
  destruct self as [fu cu dbg]; destruct dbg; run_request w url params;
    intros H; inversion H; subst; simpl; eexists; eauto 10 using in_eq, in_cons.
Qed.

(** C2, as amended. [_make_api_request] returns the parsed JSON when the
    status is not 4xx or 5xx, the body is valid JSON and the JSON is not a
    mapping with an [error] key. In each of the four other cases it
    returns [None], and the kind of the failure goes to the log only,
    as an error entry with the words [General Error], [HTTP Error],
    [JSON Decode Error] or [API Error]. *)
Theorem make_api_request_failures (w : world) (self : NasaSsdCneosApi)
    (url : string) (params : sdict) (name : string) :
  outcome (_make_api_request w self url params name)
  = Ok match classify w url params with inl _ => VNone | inr v => v end
  /\ forall k, classify w url params = inl k ->
       exists detail,
         In (Log ERROR (FText name :: FText (log_tag k) :: detail))
            (trace (_make_api_request w self url params name)).
Proof.
  split; [apply make_api_request_outcome | apply make_api_request_log].
Qed.

(** C2 at a server that cannot be reached: [None], and an error entry
    with the words [General Error] in the log. *)
Lemma make_api_request_failures_witness :
  outcome (_make_api_request offline api (fireball_url api)
             [("limit", VInt 10)] "Fireball API") = Ok VNone
  /\ exists detail,
       In (Log ERROR (FText "Fireball API" :: FText " General Error: " :: detail))
          (trace (_make_api_request offline api (fireball_url api)
                    [("limit", VInt 10)] "Fireball API")).
Proof.
  destruct (make_api_request_failures offline api (fireball_url api)
              [("limit", VInt 10)] "Fireball API") as [H1 H2].
  split; [exact H1 | ].
  apply (H2 (NetworkError ConnectionError)). reflexivity.
Defined.

(** C2, as stated, fails: a connection failure and a body that is not
    JSON are failures of two kinds, and the caller receives the same
    [None] for both. *)
Lemma make_api_request_failures_counterexample :
  classify offline "https://ssd-api.jpl.nasa.gov/fireball.api"
    [("limit", VInt 10)] = inl (NetworkError ConnectionError)
  /\ classify (answering (mkResponse 200 "<html>" None))
       "https://ssd-api.jpl.nasa.gov/fireball.api" [("limit", VInt 10)]
     = inl DecodeError
  /\ outcome (_make_api_request offline api
                "https://ssd-api.jpl.nasa.gov/fireball.api"
                [("limit", VInt 10)] "Fireball API") = Ok VNone
  /\ outcome (_make_api_request (answering (mkResponse 200 "<html>" None)) api
                "https://ssd-api.jpl.nasa.gov/fireball.api"
                [("limit", VInt 10)] "Fireball API") = Ok VNone.
Proof. repeat split. Qed.

(** ** Numeric inputs that do not parse *)

(** The text of the [ValueError] shows the input as [repr] does. *)
Lemma py_float_error (s msg : string) :
  py_float s = inl msg -> msg = (float_error ++ repr s)%string.
Proof.
  unfold py_float. destruct (drop_underscores zero (transform s)) as [s' | ].
  - destruct (string_to_double (rstrip_c (lstrip_c s'))) as [[x [ | c rest]] | ];
      intros H; inversion H; reflexivity.
  - intros H. inversion H. reflexivity.
Qed.

(** C4, as amended. An energy that does not parse makes [fetch_fireballs]
    return the message that names the energy and carries the input; a
    numeric input that does not parse makes [fetch_close_approaches]
    return [Invalid numeric input] followed by the text of the first
    conversion error, which does not name the field. Either way nothing is
    sent and nothing is logged. *)
Theorem invalid_numeric_input (w : world) (limit : Z)
    (date_min date_max energy_min dist_max h_min h_max v_inf_min v_inf_max
       : text_input) (msg ve : string) :
  parsed energy_min = inl msg ->
  conversions dist_max h_min h_max v_inf_min v_inf_max = inl ve ->
  fetch_fireballs w limit date_min energy_min
  = (Ok (OutMsg [FText "Error: Invalid energy value '";
                 FVal (input_val energy_min);
                 FText "'. Please enter a valid number."], None), [])
  /\ fetch_close_approaches w limit dist_max date_min date_max h_min h_max
       v_inf_min v_inf_max
     = (Ok (OutMsg [FText "Error: Invalid numeric input - "; FText ve], None),
        []).
Proof.
  intros H1 H2. split.
  - apply (fetch_fireballs_invalid w limit date_min energy_min msg H1).
  - apply (fetch_close_approaches_invalid w limit dist_max date_min date_max
             h_min h_max v_inf_min v_inf_max ve H2).
Qed.

Lemma invalid_numeric_input_witness :
  fetch_fireballs offline 10 (Some "2023-01-01") (Some "half")
  = (Ok (OutMsg [FText "Error: Invalid energy value '";
                 FVal (VStr "half");
                 FText "'. Please enter a valid number."], None), [])
  /\ fetch_close_approaches offline 10 (Some "0.05") None None (Some "2o")
       (Some "x") None None
     = (Ok (OutMsg [FText "Error: Invalid numeric input - ";
                    FText "could not convert string to float: '2o'"], None),
        []).
Proof.
  apply (invalid_numeric_input offline 10 (Some "2023-01-01") None (Some "half")
           (Some "0.05") (Some "2o") (Some "x") None None
           "could not convert string to float: 'half'"
           "could not convert string to float: '2o'").
  - vm_compute. reflexivity.
  - vm_compute. reflexivity.
Defined.

(** C4, as stated, fails for the close approaches: the same text typed
    into the distance field or into the H field gives the same message,
    so the message does not tell which field was wrong. *)
Lemma invalid_numeric_input_counterexample :
  fetch_close_approaches offline 10 (Some "abc") None None None None None None
  = (Ok (OutMsg [FText "Error: Invalid numeric input - ";
                 FText "could not convert string to float: 'abc'"], None), [])
  /\ fetch_close_approaches offline 10 None None None (Some "abc") None None None
     = (Ok (OutMsg [FText "Error: Invalid numeric input - ";
                    FText "could not convert string to float: 'abc'"], None), []).
Proof. split; vm_compute; reflexivity. Qed.

(** ** Error payloads *)

Lemma fetched_error (w : world) (url : string) (params : sdict) :
  answers_error w -> fetched w url params = VNone.
Proof.
  intros H. unfold fetched, classify.
  destruct (H url (clean params)) as [r [d [Hr [Hj He]]]]. rewrite Hr.
  destruct ((400 <=? status_code r) && (status_code r <? 600));
    [reflexivity | ].
  rewrite Hj. simpl. rewrite He. reflexivity.
Qed.

(** C5. When the response is a JSON mapping with an [error] key, whatever
    else it holds, [_make_api_request] returns no payload, and a callback
    that sent its request returns the "No data returned" message with no
    table and no chart. *)
Theorem error_payload_is_no_data (w : world) (self : NasaSsdCneosApi)
    (url : string) (params : sdict) (name : string) (limit : Z)
    (date_min date_max energy_min dist_max h_min h_max v_inf_min v_inf_max
       : text_input) :
  answers_error w ->
  outcome (_make_api_request w self url params name) = Ok VNone
  /\ (requests_of (trace (fetch_fireballs w limit date_min energy_min)) <> [] ->
      outcome (fetch_fireballs w limit date_min energy_min)
      = Ok (OutMsg no_data_message, None))
  /\ (requests_of (trace (fetch_close_approaches w limit dist_max date_min
                             date_max h_min h_max v_inf_min v_inf_max)) <> [] ->
      outcome (fetch_close_approaches w limit dist_max date_min date_max
                 h_min h_max v_inf_min v_inf_max)
      = Ok (OutMsg no_data_message, None)).
Proof.
  intros H. split; [ | split].
  - rewrite make_api_request_outcome.
    fold (fetched w url params). rewrite (fetched_error w url params H).
    reflexivity.
  - destruct (parsed energy_min) as [msg | e] eqn:E.
    + rewrite (fetch_fireballs_invalid _ _ _ _ msg E). simpl. congruence.
    + intros _.
      destruct (fetch_fireballs_run w limit date_min energy_min e E) as [-> _].
      rewrite (fetched_error _ _ _ H). reflexivity.
  - destruct (conversions dist_max h_min h_max v_inf_min v_inf_max)
      as [ve | [[[[a b] c] d] e]] eqn:E.
    + rewrite (fetch_close_approaches_invalid _ _ _ _ _ _ _ _ _ ve E).
      simpl. congruence.
    + intros _.
      destruct (fetch_close_approaches_run w limit dist_max date_min date_max
                  h_min h_max v_inf_min v_inf_max a b c d e E) as [-> _].
      rewrite (fetched_error _ _ _ H). reflexivity.
Qed.

Lemma error_payload_is_no_data_witness :
  answers_error (answering error_response)
  /\ outcome (_make_api_request (answering error_response) api
                (fireball_url api) [("limit", VInt 10)] "Fireball API")
     = Ok VNone
  /\ outcome (fetch_fireballs (answering error_response) 10 None None)
     = Ok (OutMsg no_data_message, None)
  /\ outcome (fetch_close_approaches (answering error_response) 10
                None None None None None None None)
     = Ok (OutMsg no_data_message, None).
Proof.
  assert (H : answers_error (answering error_response)).
  { intros url params. eexists. eexists. repeat split. }
  split; [exact H | ].
  destruct (error_payload_is_no_data (answering error_response) api
              (fireball_url api) [("limit", VInt 10)] "Fireball API" 10
              None None None None None None None None H) as [H1 [H2 H3]].
  split; [exact H1 | ].
  split; [apply H2 | apply H3]; discriminate.
Defined.

(** ** Charts *)

Lemma empty_format_columns (format_type : string) (df : DataFrame) :
  empty (format_columns format_type df) = empty df.
Proof.
  rewrite format_columns_rename. destruct df as [cols rws].
  unfold empty, rename. simpl. destruct cols; reflexivity.
Qed.

(** A table that [format_response] returns is not empty. *)
Lemma format_response_Some (self : NasaSsdCneosApi) (data : pyval)
    (format_type : string) (df : DataFrame) :
  outcome (format_response self data format_type) = Ok (Some df) ->
  empty df = false.
Proof.
  unfold format_response. destruct (truthy data); simpl; [ | discriminate].
  destruct data as [ | b | n | f | s | l | d]; simpl; try discriminate.
  destruct (negb (truthy (sdict_get d "fields" (sdict_get d "signature" VNone)))
            || negb (truthy (sdict_get d "data" VNone))); simpl;
    [discriminate | ].
  destruct (records (sdict_get d "fields" (sdict_get d "signature" VNone))
              (sdict_get d "data" VNone)) as [[ds | e] t]; simpl;
    [ | discriminate].
  destruct (empty (DataFrame_of_records ds)) eqn:E; simpl; [discriminate | ].
  destruct (debug_mode self); simpl; intros H; inversion H;
    rewrite empty_format_columns; exact E.
Qed.

(** How a callback renders a payload that normalizes to the table [df]. *)
Lemma fireballs_render_table (w : world) (data : pyval) (df : DataFrame) :
  truthy data = true ->
  outcome (format_response api data "fireballs") = Ok (Some df) ->
  outcome (fireballs_render w data) = outcome (fireball_chart w df).
Proof.
  intros Ht Hf. unfold fireballs_render. rewrite Ht. simpl.
  rewrite (run_bind _ _ (Some df) Hf). simpl.
  rewrite (format_response_Some _ _ _ _ Hf). reflexivity.
Qed.

Lemma close_approaches_render_table (w : world) (data : pyval) (df : DataFrame) :
  truthy data = true ->
  outcome (format_response api data "close_approaches") = Ok (Some df) ->
  outcome (close_approaches_render w data) = outcome (close_approach_chart w df).
Proof.
  intros Ht Hf. unfold close_approaches_render. rewrite Ht. simpl.
  rewrite (run_bind _ _ (Some df) Hf). simpl.
  rewrite (format_response_Some _ _ _ _ Hf). reflexivity.
Qed.

(** C8. For a fireball table without the column [Latitude] or without the
    column [Longitude], the chart step asks nothing of plotly, logs
    nothing, and returns the very table with no chart; so does
    [fetch_fireballs] when the payload it received normalizes to that
    table. *)
Theorem fireball_chart_missing_coordinate (w : world) (df : DataFrame)
    (limit : Z) (date_min energy_min : text_input) (e : pyval) :
  has_column "Latitude" df = false \/ has_column "Longitude" df = false ->
  fireball_chart w df = (Ok (OutTable df, None), [])
  /\ (parsed energy_min = inr e ->
      truthy (fetched w (fireball_url api) (fireball_request limit date_min e))
      = true ->
      outcome (format_response api
                 (fetched w (fireball_url api)
                    (fireball_request limit date_min e)) "fireballs")
      = Ok (Some df) ->
      outcome (fetch_fireballs w limit date_min energy_min)
      = Ok (OutTable df, None)).
Proof.
  intros H.
  assert (Hchart : fireball_chart w df = (Ok (OutTable df, None), [])).
  { unfold fireball_chart. destruct H as [-> | ->];
      [reflexivity | rewrite andb_false_r; reflexivity]. }
  split; [exact Hchart | ].
  intros Hp Ht Hf.
  destruct (fetch_fireballs_run w limit date_min energy_min e Hp) as [-> _].
  rewrite (fireballs_render_table w _ df Ht Hf), Hchart. reflexivity.
Qed.

Lemma fireball_chart_missing_coordinate_witness :
  outcome (fetch_fireballs (answering no_coordinates) 10 None (Some "0.1"))
  = Ok (OutTable
          (mkDataFrame [VStr "Date/Time"; VStr "Energy (kt)"; VStr "Latitude"]
             [[Some (VStr "2023-01-01"); Some (VStr "0.5"); Some (VStr "10.0")]]),
        None).
Proof.
  apply (fireball_chart_missing_coordinate (answering no_coordinates)
           (mkDataFrame [VStr "Date/Time"; VStr "Energy (kt)"; VStr "Latitude"]
              [[Some (VStr "2023-01-01"); Some (VStr "0.5"); Some (VStr "10.0")]])
           10 None (Some "0.1")
           (VFloat (S754_finite false 7205759403792794 (-56)))).
  - right. reflexivity.
  - vm_compute. reflexivity.
  - reflexivity.
  - reflexivity.
Defined.

(** *** The close-approach chart *)

Lemma close_approach_chart_outcome (w : world) (df : DataFrame) :
  outcome (close_approach_chart w df) = Ok (OutTable df, chart_of w df).
Proof.
  unfold close_approach_chart, chart_of, x_axis, y_axis, scatter_of,
    column_or_none, column_at, px.
  destruct (has_column "Nominal Distance (au)" df);
    destruct (has_column "Velocity (km/s)" df);
    destruct (nth_error (columns df) 0);
    destruct (nth_error (columns df) 1);
    cbn -[has_column];
    repeat match goal with
      | |- context [plotly_accepts ?w ?f] =>
          destruct (plotly_accepts w f); cbn -[has_column]
      end; reflexivity.
Qed.

(** C9. For a close-approach table the chart, when there is one, is the
    scatter plot whose X axis is [Nominal Distance (au)] if that column is
    there and the first column otherwise, whose Y axis is
    [Velocity (km/s)] if that column is there and the second column
    otherwise, and whose marker size and colour are both [H (mag)] when
    that column is there; and there is one whenever both axes exist and
    plotly builds the figure. The table is returned as it is. So it is for
    [fetch_close_approaches] on the table its payload normalizes to. *)
Theorem close_approach_chart_axes (w : world) (df : DataFrame) (limit : Z)
    (dist_max date_min date_max h_min h_max v_inf_min v_inf_max : text_input)
    (a b c d e : pyval) :
  outcome (close_approach_chart w df) = Ok (OutTable df, chart_of w df)
  /\ (forall fig, chart_of w df = Some fig ->
        exists x y,
          x_axis df = Some x /\ y_axis df = Some y
          /\ fig_data fig = df
          /\ exists hover size color title,
               fig_spec fig = Scatter x y hover size color title
               /\ (has_column "H (mag)" df = true ->
                   size = Some (VStr "H (mag)")
                   /\ color = Some (VStr "H (mag)")))
  /\ (conversions dist_max h_min h_max v_inf_min v_inf_max
      = inr (a, b, c, d, e) ->
      truthy (fetched w (ca_url api)
                (close_approach_request limit date_min date_max a b c d e))
      = true ->
      outcome (format_response api
                 (fetched w (ca_url api)
                    (close_approach_request limit date_min date_max a b c d e))
                 "close_approaches")
      = Ok (Some df) ->
      outcome (fetch_close_approaches w limit dist_max date_min date_max h_min
                 h_max v_inf_min v_inf_max)
      = Ok (OutTable df, chart_of w df)).
Proof.
  split; [apply close_approach_chart_outcome | ]. split.
  - intros fig Hfig. unfold chart_of in Hfig.
    destruct (x_axis df) as [x | ]; [ | discriminate].
    destruct (y_axis df) as [y | ]; [ | discriminate].
    destruct (plotly_accepts w (scatter_of df x y)); [ | discriminate].
    inversion Hfig; subst fig. exists x, y.
    split; [reflexivity | split; [reflexivity | split; [reflexivity | ]]].
    unfold scatter_of. simpl. do 4 eexists. split; [reflexivity | ].
    intros ->. split; reflexivity.
  - intros Hc Ht Hf.
    destruct (fetch_close_approaches_run w limit dist_max date_min date_max
                h_min h_max v_inf_min v_inf_max a b c d e Hc) as [-> _].
    rewrite (close_approaches_render_table w _ df Ht Hf).
    apply close_approach_chart_outcome.
Qed.

Example close_approach_chart_fallback :
  outcome (fetch_close_approaches (answering only_h) 10
             None None None None None None None)
  = Ok (OutTable
          (mkDataFrame [VStr "Object"; VStr "Time (TDB)"; VStr "H (mag)"]
             [[Some (VStr "2023 AB"); Some (VStr "2023-Jan-01");
               Some (VStr "25.1")]]),
        Some (mkFigure
                (mkDataFrame [VStr "Object"; VStr "Time (TDB)"; VStr "H (mag)"]
                   [[Some (VStr "2023 AB"); Some (VStr "2023-Jan-01");
                     Some (VStr "25.1")]])
                (Scatter (VStr "Object") (VStr "Time (TDB)")
                   (Some (VStr "Object")) (Some (VStr "H (mag)"))
                   (Some (VStr "H (mag)"))
                   "Close Approaches - Distance vs Velocity"))).
Proof. reflexivity. Qed.

Lemma close_approach_chart_axes_witness :
  outcome (fetch_close_approaches (answering only_h) 10
             None None None None None None None)
  = Ok (OutTable
          (mkDataFrame [VStr "Object"; VStr "Time (TDB)"; VStr "H (mag)"]
             [[Some (VStr "2023 AB"); Some (VStr "2023-Jan-01");
               Some (VStr "25.1")]]),
        chart_of (answering only_h)
          (mkDataFrame [VStr "Object"; VStr "Time (TDB)"; VStr "H (mag)"]
             [[Some (VStr "2023 AB"); Some (VStr "2023-Jan-01");
               Some (VStr "25.1")]])).
Proof.
  apply (close_approach_chart_axes (answering only_h)
           (mkDataFrame [VStr "Object"; VStr "Time (TDB)"; VStr "H (mag)"]
              [[Some (VStr "2023 AB"); Some (VStr "2023-Jan-01");
                Some (VStr "25.1")]])
           10 None None None None None None None
           VNone VNone VNone VNone VNone); reflexivity.
Defined.

End Callbacks.

(* ===================================================================== *)
(** * Further properties of the table normalizer *)
(* ===================================================================== *)

Module NormalizerMore.
Import Py Eff Pandas App Spec EffFacts Normalizer.
Local Open Scope eff_scope.

(** For a mapping, the outcome of [format_response] is [normalized]. *)
Lemma format_response_dict (self : NasaSsdCneosApi) (d : sdict)
    (format_type : string) :
  outcome (format_response self (VDict d) format_type)
  = Ok (normalized d format_type).
Proof.
  unfold format_response, normalized.
  destruct (truthy (VDict d)); simpl; [ | reflexivity].
  fold (field_list d).
  destruct (negb (truthy (field_list d))
            || negb (truthy (sdict_get d "data" VNone))); simpl;
    [reflexivity | ].
  destruct (records (field_list d) (sdict_get d "data" VNone))
    as [[ds | e] t]; simpl; [ | reflexivity].
  destruct (empty (DataFrame_of_records ds)); simpl; [reflexivity | ].
  destruct (debug_mode self); reflexivity.
Qed.

(** Anything that is not a mapping gives [None]. *)
Lemma format_response_not_dict (self : NasaSsdCneosApi) (data : pyval)
    (format_type : string) :
  is_dict data = false ->
  outcome (format_response self data format_type) = Ok None.
Proof.
  intros H. unfold format_response.
  destruct (truthy data); simpl; [ | reflexivity].
  destruct data; try reflexivity. discriminate H.
Qed.

(** ** The field list *)

Lemma sdict_get_present (d : sdict) (k : string) (x y : pyval) :
  sdict_mem k d = true -> sdict_get d k x = sdict_get d k y.
Proof.
  induction d as [ | [k' v] d IH]; simpl; [discriminate | ].
  destruct (String.eqb k' k); [reflexivity | exact IH].
Qed.

(** X1. The key [fields] wins over [signature] whenever it is there, also
    when its value is [null] or an empty list: then [format_response]
    returns [None] and the list under [signature] is not looked at. *)
Theorem fields_shadow_signature (self : NasaSsdCneosApi) (d : sdict)
    (format_type : string) :
  sdict_mem "fields" d = true ->
  truthy (sdict_get d "fields" VNone) = false ->
  outcome (format_response self (VDict d) format_type) = Ok None.
Proof.
  intros Hin Hf. rewrite format_response_dict. unfold normalized, field_list.
  destruct (truthy (VDict d)); simpl; [ | reflexivity].
  rewrite (sdict_get_present d "fields" _ VNone Hin), Hf. reflexivity.
Qed.

Lemma fields_shadow_signature_witness :
  outcome (format_response NasaSsdCneosApi_init
             (VDict [("fields", VNone);
                     ("signature", VList [VStr "date"]);
                     ("data", VList [VList [VStr "2023-01-01"]])])
             "fireballs") = Ok None.
Proof. apply fields_shadow_signature; reflexivity. Defined.

Lemma sdict_get_signature_as_fields (d : sdict) (x : pyval) :
  sdict_mem "fields" d = false ->
  sdict_get (signature_as_fields d) "fields" x = sdict_get d "signature" x.
Proof.
  unfold signature_as_fields.
  induction d as [ | [k v] d IH]; [reflexivity | ].
  cbn [map sdict_get sdict_mem existsb fst snd]. intros H.
  apply orb_false_elim in H. destruct H as [Hk Hd].
  destruct (String.eqb k "signature") eqn:E; cbn [sdict_get].
  - reflexivity.
  - rewrite Hk. apply IH. exact Hd.
Qed.

Lemma sdict_get_other_signature_as_fields (d : sdict) (k : string) (x : pyval) :
  String.eqb k "fields" = false -> String.eqb k "signature" = false ->
  sdict_get (signature_as_fields d) k x = sdict_get d k x.
Proof.
  intros Hf Hs. unfold signature_as_fields.
  induction d as [ | [k' v] d IH]; [reflexivity | ].
  cbn [map sdict_get fst snd].
  destruct (String.eqb k' "signature") eqn:E; cbn [sdict_get].
  - apply String.eqb_eq in E. subst k'.
    rewrite (String.eqb_sym "fields" k), Hf.
    rewrite (String.eqb_sym "signature" k), Hs. exact IH.
  - destruct (String.eqb k' k); [reflexivity | exact IH].
Qed.

(** X2. A mapping that has no key [fields] is normalized as the same mapping
    with its key [signature] called [fields]: the two spellings give the
    same table. *)
Theorem signature_is_fields (self : NasaSsdCneosApi) (d : sdict)
    (format_type : string) :
  sdict_mem "fields" d = false ->
  outcome (format_response self (VDict (signature_as_fields d)) format_type)
  = outcome (format_response self (VDict d) format_type).
Proof.
  intros H. rewrite !format_response_dict. f_equal.
  unfold normalized, field_list.
  rewrite (sdict_get_signature_as_fields d _ H).
  rewrite (sdict_get_missing d "fields" _ H).
  rewrite (sdict_get_other_signature_as_fields d "data" VNone eq_refl eq_refl).
  assert (Hs : sdict_get d "signature"
                 (sdict_get (signature_as_fields d) "signature" VNone)
               = sdict_get d "signature" VNone).
  { destruct (sdict_mem "signature" d) eqn:E.
    - apply sdict_get_present. exact E.
    - rewrite !(sdict_get_missing d "signature" _ E).
      apply sdict_get_missing. unfold signature_as_fields. clear H.
      induction d as [ | [k v] d IH]; [reflexivity | ].
      cbn [map sdict_mem existsb fst snd] in *.
      apply orb_false_elim in E. destruct E as [E1 E2].
      rewrite E1. cbn [fst]. rewrite E1. apply IH. exact E2. }
  rewrite Hs.
  assert (Ht : truthy (VDict (signature_as_fields d)) = truthy (VDict d)).
  { destruct d; reflexivity. }
  rewrite Ht. reflexivity.
Qed.

Lemma signature_is_fields_witness :
  outcome (format_response NasaSsdCneosApi_init
             (VDict [("fields", VList [VStr "des"; VStr "h"]);
                     ("data", VList [VList [VStr "2023 AB"; VStr "25.1"]])])
             "close_approaches")
  = outcome (format_response NasaSsdCneosApi_init
               (VDict [("signature", VList [VStr "des"; VStr "h"]);
                       ("data", VList [VList [VStr "2023 AB"; VStr "25.1"]])])
               "close_approaches").
Proof.
  apply (signature_is_fields NasaSsdCneosApi_init
           [("signature", VList [VStr "des"; VStr "h"]);
            ("data", VList [VList [VStr "2023 AB"; VStr "25.1"]])]
           "close_approaches").
  reflexivity.
Defined.

(** ** Rows and field names that cannot be used *)

Lemma py_iter_not_iterable (v : pyval) :
  iterable v = false -> py_iter v = Raise TypeError.
Proof. destruct v; simpl; intros H; try reflexivity; discriminate H. Qed.

Lemma dict_zip_all_raises (fields : pyval) (rs : list pyval) (r : pyval) :
  In r rs -> (exists e, dict_zip fields r = Raise e) ->
  exists e, dict_zip_all fields rs = Raise e.
Proof.
  intros Hin [e He]. induction rs as [ | r0 rs IH]; [destruct Hin | ].
  simpl. destruct Hin as [-> | Hin].
  - rewrite He. exists e. reflexivity.
  - destruct (dict_zip fields r0) as [d0 | e0]; [ | exists e0; reflexivity].
    destruct (IH Hin) as [e' ->]. exists e'. reflexivity.
Qed.

Lemma normalized_raises (d : sdict) (format_type : string) (rs : list pyval)
    (e : exn) :
  sdict_get d "data" VNone = VList rs ->
  dict_zip_all (field_list d) rs = Raise e ->
  normalized d format_type = None.
Proof.
  intros Hd Hz. unfold normalized.
  destruct (negb (truthy (VDict d))); [reflexivity | ].
  destruct (negb (truthy (field_list d))
            || negb (truthy (sdict_get d "data" VNone))); [reflexivity | ].
  rewrite Hd. unfold records, lift, bind, outcome. simpl. rewrite Hz.
  reflexivity.
Qed.

(** X3. One element of [data] that is not a list, a string or a mapping (a
    number, [true], [null]) costs the whole table: [format_response]
    returns [None] however many good rows there are. *)
Theorem one_bad_row_loses_table (self : NasaSsdCneosApi) (d : sdict)
    (rs : list pyval) (r : pyval) (format_type : string) :
  sdict_get d "data" VNone = VList rs ->
  In r rs ->
  iterable r = false ->
  outcome (format_response self (VDict d) format_type) = Ok None.
Proof.
  intros Hd Hin Hr. rewrite format_response_dict. f_equal.
  destruct (dict_zip_all_raises (field_list d) rs r Hin) as [e He].
  - unfold dict_zip. destruct (py_iter (field_list d)) as [fs | e];
      [ | exists e; reflexivity].
    rewrite (py_iter_not_iterable r Hr). exists TypeError. reflexivity.
  - exact (normalized_raises d format_type rs e Hd He).
Qed.

Lemma one_bad_row_loses_table_witness :
  outcome (format_response NasaSsdCneosApi_init
             (VDict [("fields", VList [VStr "date"; VStr "energy"]);
                     ("data", VList [VList [VStr "2023-01-01"; VStr "0.5"];
                                     VNone;
                                     VList [VStr "2023-01-02"; VStr "0.7"]])])
             "fireballs") = Ok None.
Proof.
  apply (one_bad_row_loses_table NasaSsdCneosApi_init
           [("fields", VList [VStr "date"; VStr "energy"]);
            ("data", VList [VList [VStr "2023-01-01"; VStr "0.5"];
                            VNone;
                            VList [VStr "2023-01-02"; VStr "0.7"]])]
           [VList [VStr "2023-01-01"; VStr "0.5"]; VNone;
            VList [VStr "2023-01-02"; VStr "0.7"]]
           VNone "fireballs").
  - reflexivity.
  - right. left. reflexivity.
  - reflexivity.
Defined.

Lemma dict_of_pairs_unhashable (ps : list (pyval * pyval)) (acc : pydict) :
  Exists (fun kv => hashable (fst kv) = false) ps ->
  dict_of_pairs ps acc = Raise TypeError.
Proof.
  intros H. revert acc. induction H as [[k v] ps Hk | [k v] ps _ IH];
    intros acc; simpl in *.
  - rewrite Hk. reflexivity.
  - destruct (hashable k); [apply IH | reflexivity].
Qed.

Lemma combine_reaches {A B} (l : list A) (l' : list B) (i : nat) (a : A) :
  nth_error l i = Some a -> (i < List.length l')%nat ->
  exists b, In (a, b) (combine l l').
Proof.
  revert l' i. induction l as [ | x l IH]; intros l' i Ha Hi.
  - destruct i; discriminate Ha.
  - destruct l' as [ | y l']; [simpl in Hi; lia | ].
    destruct i as [ | i]; simpl in *.
    + inversion Ha; subst. exists y. left. reflexivity.
    + destruct (IH l' i Ha) as [b Hb]; [lia | ].
      exists b. right. exact Hb.
Qed.

(** X4. A field name that is itself a list or a mapping cannot be a key: as
    soon as one row is long enough to reach it, [format_response] returns
    [None]. *)
Theorem unhashable_field_loses_table (self : NasaSsdCneosApi) (d : sdict)
    (fs : list pyval) (rws : list (list pyval)) (i : nat) (f : pyval)
    (vs : list pyval) (format_type : string) :
  field_list d = VList fs ->
  sdict_get d "data" VNone = VList (map VList rws) ->
  nth_error fs i = Some f ->
  hashable f = false ->
  In vs rws ->
  (i < List.length vs)%nat ->
  outcome (format_response self (VDict d) format_type) = Ok None.
Proof.
  intros Hf Hd Hi Hh Hin Hlen. rewrite format_response_dict. f_equal.
  destruct (dict_zip_all_raises (field_list d) (map VList rws) (VList vs))
    as [e He].
  - apply in_map. exact Hin.
  - rewrite Hf. unfold dict_zip. simpl. exists TypeError.
    apply dict_of_pairs_unhashable. apply Exists_exists.
    destruct (combine_reaches fs vs i f Hi Hlen) as [b Hb].
    exists (f, b). split; [exact Hb | exact Hh].
  - exact (normalized_raises d format_type _ e Hd He).
Qed.

Lemma unhashable_field_loses_table_witness :
  outcome (format_response NasaSsdCneosApi_init
             (VDict [("fields", VList [VStr "date"; VList [VStr "lat"; VStr "lon"]]);
                     ("data", VList [VList [VStr "2023-01-01"; VInt 10]])])
             "fireballs") = Ok None.
Proof.
  apply (unhashable_field_loses_table NasaSsdCneosApi_init
           [("fields", VList [VStr "date"; VList [VStr "lat"; VStr "lon"]]);
            ("data", VList [VList [VStr "2023-01-01"; VInt 10]])]
           [VStr "date"; VList [VStr "lat"; VStr "lon"]]
           [[VStr "2023-01-01"; VInt 10]]
           1 (VList [VStr "lat"; VStr "lon"])
           [VStr "2023-01-01"; VInt 10] "fireballs").
  - reflexivity.
  - reflexivity.
  - reflexivity.
  - reflexivity.
  - left. reflexivity.
  - simpl. lia.
Defined.

(** ** The table that comes back *)

Lemma dict_zip_all_length (fields : pyval) (rs : list pyval) (ds : list pydict) :
  dict_zip_all fields rs = Ok ds -> List.length ds = List.length rs.
Proof.
  revert ds. induction rs as [ | r rs IH]; intros ds; simpl.
  - intros H. inversion H. reflexivity.
  - destruct (dict_zip fields r); [ | discriminate].
    destruct (dict_zip_all fields rs) as [ds' | ]; [ | discriminate].
    intros H. inversion H. simpl. rewrite (IH ds' eq_refl). reflexivity.
Qed.

(** X5. A table that [format_response] returns comes from a mapping, has one
    record for every element of [data], no more and no fewer, has at least
    one row and one column, and every record has one cell per column. *)
Theorem returned_table_shape (self : NasaSsdCneosApi) (data : pyval)
    (format_type : string) (df : DataFrame) :
  outcome (format_response self data format_type) = Ok (Some df) ->
  exists d rs,
    data = VDict d
    /\ py_iter (sdict_get d "data" VNone) = Ok rs
    /\ len df = List.length rs
    /\ rows df <> [] /\ columns df <> []
    /\ Forall (fun r => List.length r = List.length (columns df)) (rows df).
Proof.
  intros H.
  destruct (is_dict data) eqn:E;
    [ | rewrite (format_response_not_dict self data format_type E) in H;
        discriminate H].
  destruct data as [ | | | | | | d]; try discriminate E. clear E.
  rewrite format_response_dict in H. inversion H as [Hn]. clear H.
  unfold normalized in Hn.
  destruct (negb (truthy (VDict d))); [discriminate | ].
  destruct (negb (truthy (field_list d))
            || negb (truthy (sdict_get d "data" VNone))); [discriminate | ].
  unfold records, lift, bind, outcome in Hn.
  destruct (py_iter (sdict_get d "data" VNone)) as [rs | e] eqn:Hrs;
    simpl in Hn; [ | discriminate].
  destruct (dict_zip_all (field_list d) rs) as [ds | e] eqn:Hds;
    simpl in Hn; [ | discriminate].
  destruct (empty (DataFrame_of_records ds)) eqn:Hem; [discriminate | ].
  inversion Hn; subst df. clear Hn.
  exists d, rs. split; [reflexivity | ]. split; [exact Hrs | ].
  rewrite format_columns_rename. unfold rename, len. simpl.
  unfold empty, DataFrame_of_records in Hem. simpl in Hem.
  split; [rewrite length_map; apply (dict_zip_all_length _ _ _ Hds) | ].
  split; [destruct (union_keys ds); [discriminate | ];
          destruct ds; [discriminate | discriminate] | ].
  split; [destruct (union_keys ds); [discriminate | discriminate] | ].
  apply Forall_forall. intros r Hr. apply in_map_iff in Hr.
  destruct Hr as [d0 [<- _]]. rewrite !length_map. reflexivity.
Qed.

Lemma returned_table_shape_witness :
  exists d rs,
    VDict fireball_payload = VDict d
    /\ py_iter (sdict_get d "data" VNone) = Ok rs
    /\ len (mkDataFrame
              [VStr "Date/Time"; VStr "Energy (kt)"; VStr "Latitude";
               VStr "Longitude"]
              [[Some (VStr "2023-01-01T00:00:00"); Some (VStr "0.5");
                Some (VInt 10); Some (VInt (-20))]]) = List.length rs
    /\ rows (mkDataFrame
               [VStr "Date/Time"; VStr "Energy (kt)"; VStr "Latitude";
                VStr "Longitude"]
               [[Some (VStr "2023-01-01T00:00:00"); Some (VStr "0.5");
                 Some (VInt 10); Some (VInt (-20))]]) <> []
    /\ columns (mkDataFrame
                  [VStr "Date/Time"; VStr "Energy (kt)"; VStr "Latitude";
                   VStr "Longitude"]
                  [[Some (VStr "2023-01-01T00:00:00"); Some (VStr "0.5");
                    Some (VInt 10); Some (VInt (-20))]]) <> []
    /\ Forall (fun r => List.length r = 4%nat)
         [[Some (VStr "2023-01-01T00:00:00"); Some (VStr "0.5");
           Some (VInt 10); Some (VInt (-20))]].
Proof.
  apply (returned_table_shape NasaSsdCneosApi_init (VDict fireball_payload)
           "fireballs"). reflexivity.
Defined.

(** ** The exact table of a well-formed payload *)

Lemma dict_set_fresh (acc : list (string * pyval)) (n : string) (v : pyval) :
  ~ In n (map fst acc) ->
  dict_set (named acc) (VStr n) v = named (acc ++ [(n, v)]).
Proof.
  unfold named. induction acc as [ | [k x] acc IH]; intros H; [reflexivity | ].
  cbn [map dict_set fst snd app]. rewrite PandasFacts.key_eqb_VStr.
  destruct (String.eqb k n) eqn:E.
  - apply String.eqb_eq in E. exfalso. apply H. left. exact E.
  - f_equal. apply IH. intros Hin. apply H. right. exact Hin.
Qed.

Lemma dict_of_pairs_fresh (names : list string) (vs : list pyval)
    (acc : list (string * pyval)) :
  NoDup (map fst acc ++ names) ->
  dict_of_pairs (combine (map VStr names) vs) (named acc)
  = Ok (named (acc ++ combine names vs)).
Proof.
  revert vs acc. induction names as [ | n names IH]; intros vs acc Hnd.
  - simpl. rewrite app_nil_r. reflexivity.
  - destruct vs as [ | v vs]; [simpl; rewrite app_nil_r; reflexivity | ].
    cbn [map combine dict_of_pairs hashable].
    rewrite dict_set_fresh.
    + rewrite IH.
      * rewrite <- app_assoc. reflexivity.
      * rewrite map_app, <- app_assoc. exact Hnd.
    + apply NoDup_remove_2 in Hnd. intros Hin. apply Hnd.
      apply in_or_app. left. exact Hin.
Qed.

Lemma dict_zip_fresh (names : list string) (vs : list pyval) :
  NoDup names ->
  dict_zip (VList (map VStr names)) (VList vs)
  = Ok (named (combine names vs)).
Proof.
  intros H. unfold dict_zip. simpl.
  exact (dict_of_pairs_fresh names vs [] H).
Qed.

Lemma map_fst_combine_full {A B} (l : list A) (l' : list B) :
  List.length l' = List.length l -> map fst (combine l l') = l.
Proof.
  intros H. rewrite map_fst_combine, H. apply firstn_all.
Qed.

Lemma add_keys_cons (cols : list label) (k : label) (v : pyval) (d : pydict) :
  add_keys cols ((k, v) :: d)
  = add_keys (if label_mem k cols then cols else (cols ++ [k])%list) d.
Proof. reflexivity. Qed.

Lemma add_keys_new (ps : list (string * pyval)) (pre : list string) :
  NoDup (pre ++ map fst ps) ->
  add_keys (map VStr pre) (named ps) = map VStr (pre ++ map fst ps).
Proof.
  revert pre. induction ps as [ | [n v] ps IH]; intros pre Hnd.
  - simpl. rewrite app_nil_r. reflexivity.
  - cbn [named map fst snd]. rewrite add_keys_cons.
    assert (Hn : label_mem (VStr n) (map VStr pre) = false).
    { destruct (label_mem (VStr n) (map VStr pre)) eqn:E; [ | reflexivity].
      apply PandasFacts.label_mem_VStr in E. apply in_map_iff in E.
      destruct E as [n' [Heq Hin]]. inversion Heq; subst n'.
      apply NoDup_remove_2 in Hnd. exfalso. apply Hnd.
      apply in_or_app. left. exact Hin. }
    rewrite Hn. fold (named ps).
    change (map VStr pre ++ [VStr n])%list
      with (map VStr pre ++ map VStr [n])%list.
    rewrite <- map_app, IH.
    + rewrite <- app_assoc. reflexivity.
    + rewrite <- app_assoc. exact Hnd.
Qed.

Lemma add_keys_old (ps : list (string * pyval)) (cols : list label) :
  (forall n, In n (map fst ps) -> In (VStr n) cols) ->
  add_keys cols (named ps) = cols.
Proof.
  induction ps as [ | [n v] ps IH]; intros H; [reflexivity | ].
  cbn [named map fst snd]. rewrite add_keys_cons.
  assert (Hn : label_mem (VStr n) cols = true).
  { apply PandasFacts.label_mem_VStr. apply H. left. reflexivity. }
  rewrite Hn. fold (named ps). apply IH. intros m Hm. apply H. right. exact Hm.
Qed.

Lemma dict_get_named (names : list string) (vs : list pyval) :
  NoDup names -> List.length vs = List.length names ->
  map (dict_get (named (combine names vs))) (map VStr names) = map Some vs.
Proof.
  revert vs. induction names as [ | n names IH]; intros vs Hnd Hlen.
  - destruct vs; [reflexivity | discriminate Hlen].
  - destruct vs as [ | v vs]; [discriminate Hlen | ].
    inversion Hnd as [ | x l Hn Hnd']; subst.
    cbn [combine named map dict_get fst snd].
    rewrite PandasFacts.key_eqb_VStr, String.eqb_refl. f_equal.
    rewrite <- (IH vs Hnd'); [ | simpl in Hlen; lia].
    rewrite !map_map. apply map_ext_in. intros m Hm.
    cbn [dict_get]. rewrite PandasFacts.key_eqb_VStr.
    destruct (String.eqb n m) eqn:E; [ | reflexivity].
    apply String.eqb_eq in E. subst m. contradiction.
Qed.

(** On the columns of the table, the filtered rename table renames as
    the whole table does. *)
Lemma rename_label_valid (mapper : list (string * string)) (df : DataFrame)
    (c : label) :
  In c (columns df) ->
  rename_label (valid_rename mapper df) c = rename_label mapper c.
Proof.
  intros Hc. unfold valid_rename.
  induction mapper as [ | [k v] m IH]; [reflexivity | ].
  cbn [filter fst rename_label].
  destruct (has_column k df) eqn:E; cbn [rename_label].
  - destruct (key_eqb (VStr k) c); [reflexivity | exact IH].
  - destruct (key_eqb (VStr k) c) eqn:E'; [ | exact IH].
    apply PandasFacts.key_eqb_VStr_l in E'. subst c.
    apply PandasFacts.label_mem_VStr in Hc. unfold has_column in E.
    congruence.
Qed.

(** The table of distinct field names and rows of full length. *)
Lemma format_response_of_rows (self : NasaSsdCneosApi) (d : sdict)
    (names : list string) (rws : list (list pyval)) (format_type : string) :
  field_list d = VList (map VStr names) ->
  NoDup names ->
  names <> [] ->
  sdict_get d "data" VNone = VList (map VList rws) ->
  rws <> [] ->
  Forall (fun vs => List.length vs = List.length names) rws ->
  outcome (format_response self (VDict d) format_type)
  = Ok (Some (mkDataFrame
                (map (rename_label (rename_map_of format_type))
                     (map VStr names))
                (map (map Some) rws))).
Proof.
  intros Hf Hnd Hne Hd Hrws Hlen.
  assert (Hds : dict_zip_all (VList (map VStr names)) (map VList rws)
                = Ok (map (fun vs => named (combine names vs)) rws)).
  { clear Hd Hrws. induction rws as [ | vs rws IH]; [reflexivity | ].
    inversion Hlen; subst. simpl.
    rewrite (dict_zip_fresh names vs Hnd), IH by assumption. reflexivity. }
  set (ds := map (fun vs => named (combine names vs)) rws) in *.
  assert (Hcols : union_keys ds = map VStr names).
  { subst ds. destruct rws as [ | vs rws]; [congruence | ].
    inversion Hlen as [ | x l Hvs Hrest]; subst.
    unfold union_keys. cbn [map fold_left].
    pose proof (add_keys_new (combine names vs) []) as Hk.
    cbn [map app] in Hk. rewrite (map_fst_combine_full names vs Hvs) in Hk.
    replace (add_keys [] (named (combine names vs))) with (map VStr names)
      by (symmetry; exact (Hk Hnd)).
    clear Hk Hvs Hlen Hrws Hds Hd. induction Hrest as [ | vs' rws Hvs' Hrest IH];
      [reflexivity | ].
    cbn [map fold_left]. rewrite add_keys_old; [exact IH | ].
    intros n Hn. rewrite (map_fst_combine_full names vs' Hvs') in Hn.
    apply in_map. exact Hn. }
  assert (Hrows : map (fun d0 => map (dict_get d0) (map VStr names)) ds
                  = map (map Some) rws).
  { subst ds. rewrite map_map. apply map_ext_in. intros vs Hvs.
    rewrite Forall_forall in Hlen. apply dict_get_named; auto. }
  rewrite (format_response_records self d format_type ds).
  - unfold DataFrame_of_records. rewrite Hcols, Hrows.
    assert (Hem : empty (mkDataFrame (map VStr names) (map (map Some) rws))
                  = false).
    { unfold empty. simpl. destruct names; [congruence | ].
      destruct rws; [congruence | reflexivity]. }
    rewrite Hem. f_equal. f_equal. rewrite format_columns_rename.
    unfold rename. simpl. f_equal. apply map_ext_in. intros c Hc.
    apply rename_label_valid. exact Hc.
  - rewrite Hf. destruct names; [congruence | reflexivity].
  - rewrite Hd. destruct rws; [congruence | reflexivity].
  - rewrite Hf, Hd, records_lists. exact Hds.
Qed.



(** ** Renaming and distinct columns *)

Lemma NoDup_map_in {A B} (f : A -> B) (l : list A) :
  (forall x y, In x l -> In y l -> f x = f y -> x = y) ->
  NoDup l -> NoDup (map f l).
Proof.
  intros Hinj Hnd. induction Hnd as [ | a l Ha Hnd IH]; [constructor | ].
  simpl. constructor.
  - intros Hin. apply in_map_iff in Hin. destruct Hin as [b [Hb Hbl]].
    assert (b = a) by (apply Hinj; [right; exact Hbl | left; reflexivity | exact Hb]).
    subst b. contradiction.
  - apply IH. intros x y Hx Hy. apply Hinj; right; assumption.
Qed.

Lemma NoDup_snd_key {A B} (m : list (A * B)) (k1 k2 : A) (v : B) :
  NoDup (map snd m) -> In (k1, v) m -> In (k2, v) m -> k1 = k2.
Proof.
  induction m as [ | [k x] m IH]; intros Hnd H1 H2; [destruct H1 | ].
  simpl in Hnd. inversion Hnd as [ | y l Hx Hnd']; subst.
  destruct H1 as [H1 | H1]; destruct H2 as [H2 | H2].
  - congruence.
  - inversion H1; subst. exfalso. apply Hx.
    apply in_map_iff. exists (k2, v). split; [reflexivity | exact H2].
  - inversion H2; subst. exfalso. apply Hx.
    apply in_map_iff. exists (k1, v). split; [reflexivity | exact H1].
  - apply IH; assumption.
Qed.

(** The display names of a kind are distinct. *)
Lemma display_names_distinct (format_type : string) :
  NoDup (map snd (rename_map_of format_type)).
Proof.
  unfold rename_map_of.
  destruct (String.eqb format_type "fireballs");
    [ | destruct (String.eqb format_type "close_approaches")];
    simpl; repeat constructor; simpl; intuition discriminate.
Qed.

(** X7. Renaming keeps the number of columns and touches no cell; and when
    the columns are distinct and none of them is already a display name
    of the kind, the renamed columns are distinct too. *)
Theorem rename_keeps_columns_distinct (format_type : string) (df : DataFrame) :
  NoDup (columns df) ->
  (forall c, In c (columns df) -> ~ In c (display_names format_type)) ->
  NoDup (columns (format_columns format_type df))
  /\ List.length (columns (format_columns format_type df))
     = List.length (columns df)
  /\ rows (format_columns format_type df) = rows df.
Proof.
  intros Hnd Hdisp. rewrite format_columns_rename. unfold rename. simpl.
  split; [ | split; [apply length_map | reflexivity]].
  set (m := valid_rename (rename_map_of format_type) df).
  assert (Hm : forall k v, In (k, v) m -> In (k, v) (rename_map_of format_type)).
  { intros k v H. unfold m, valid_rename in H. apply filter_In in H. apply H. }
  assert (Hd : forall k v, In (k, v) m -> In (VStr v) (display_names format_type)).
  { intros k v H. unfold display_names. apply in_map_iff. exists (k, v).
    split; [reflexivity | apply Hm; exact H]. }
  apply NoDup_map_in; [ | exact Hnd].
  intros x y Hx Hy Heq.
  destruct (rename_label_cases m x) as [[Hxid _] | [kx [vx [Hkx [Hxk Hxr]]]]];
    destruct (rename_label_cases m y) as [[Hyid _] | [ky [vy [Hky [Hyk Hyr]]]]].
  - congruence.
  - exfalso. apply (Hdisp x Hx). rewrite <- Hxid, Heq, Hyr.
    apply (Hd ky vy Hky).
  - exfalso. apply (Hdisp y Hy). rewrite <- Hyid, <- Heq, Hxr.
    apply (Hd kx vx Hkx).
  - rewrite Hxr, Hyr in Heq. inversion Heq; subst vy.
    rewrite Hxk, Hyk. f_equal.
    apply (NoDup_snd_key (rename_map_of format_type) kx ky vx
             (display_names_distinct format_type)); apply Hm; assumption.
Qed.

Lemma rename_keeps_columns_distinct_witness :
  NoDup (columns (format_columns "fireballs"
                    (mkDataFrame [VStr "date"; VStr "lat"; VStr "note"]
                                 [[Some (VStr "2023-01-01"); Some (VInt 1); None]])))
  /\ List.length (columns (format_columns "fireballs"
                     (mkDataFrame [VStr "date"; VStr "lat"; VStr "note"]
                                  [[Some (VStr "2023-01-01"); Some (VInt 1); None]])))
     = 3%nat
  /\ rows (format_columns "fireballs"
             (mkDataFrame [VStr "date"; VStr "lat"; VStr "note"]
                          [[Some (VStr "2023-01-01"); Some (VInt 1); None]]))
     = [[Some (VStr "2023-01-01"); Some (VInt 1); None]].
Proof.
  apply (rename_keeps_columns_distinct "fireballs"
           (mkDataFrame [VStr "date"; VStr "lat"; VStr "note"]
                        [[Some (VStr "2023-01-01"); Some (VInt 1); None]])).
  - simpl. repeat constructor; simpl; intuition discriminate.
  - simpl. intros c [<- | [<- | [<- | []]]] H;
      repeat (destruct H as [H | H]; [discriminate H | ]); contradiction.
Defined.

(** ** The debug flag *)

(** X8. The object on which [format_response] is called, with its debug
    flag and its URLs, has no part in what is returned: two objects give
    the same result on the same payload. *)
Theorem format_response_ignores_self (self self' : NasaSsdCneosApi)
    (data : pyval) (format_type : string) :
  outcome (format_response self data format_type)
  = outcome (format_response self' data format_type).
Proof.
  destruct (is_dict data) eqn:E.
  - destruct data; try discriminate E. rewrite !format_response_dict.
    reflexivity.
  - rewrite !format_response_not_dict by exact E. reflexivity.
Qed.

End NormalizerMore.

(* ===================================================================== *)
(** * Further properties of the transport client and the callbacks *)
(* ===================================================================== *)

Module CallbacksMore.
Import Py Eff Pandas App Spec EffFacts Transport Normalizer Callbacks
  NormalizerMore.
Local Open Scope eff_scope.

(** ** The transport client *)

(** X9. With the debug flag off, a request that succeeds leaves nothing in
    the log: the run consists of the one request, and the parsed JSON is
    returned. *)
Theorem debug_off_success_is_silent (w : world) (self : NasaSsdCneosApi)
    (url : string) (params : sdict) (name : string) (v : pyval) :
  debug_mode self = false ->
  classify w url params = inr v ->
  _make_api_request w self url params name
  = (Ok v, [HttpGet url (clean params)]).
Proof.
  intros Hd. destruct self as [fu cu dbg]. simpl in Hd. subst dbg.
  run_request w url params; intros H; inversion H; reflexivity.
Qed.

Lemma debug_off_success_is_silent_witness :
  _make_api_request (serving (VDict fireball_payload))
    (mkApi "https://ssd-api.jpl.nasa.gov/fireball.api"
           "https://ssd-api.jpl.nasa.gov/cad.api" false)
    "https://ssd-api.jpl.nasa.gov/fireball.api"
    [("limit", VInt 10); ("date-min", VNone)] "Fireball API"
  = (Ok (VDict fireball_payload),
     [HttpGet "https://ssd-api.jpl.nasa.gov/fireball.api" [("limit", VInt 10)]]).
Proof.
  apply (debug_off_success_is_silent (serving (VDict fireball_payload))
           (mkApi "https://ssd-api.jpl.nasa.gov/fireball.api"
                  "https://ssd-api.jpl.nasa.gov/cad.api" false)
           "https://ssd-api.jpl.nasa.gov/fireball.api"
           [("limit", VInt 10); ("date-min", VNone)] "Fireball API"
           (VDict fireball_payload)); reflexivity.
Defined.

(** X10. A mapping that [_make_api_request] returns has no key [error]. *)
Theorem returned_payload_has_no_error_key (w : world) (self : NasaSsdCneosApi)
    (url : string) (params : sdict) (name : string) (d : sdict) :
  outcome (_make_api_request w self url params name) = Ok (VDict d) ->
  sdict_mem "error" d = false.
Proof.
  rewrite make_api_request_outcome. unfold classify.
  destruct (http w url (clean params)) as [f | r]; [discriminate | ].
  destruct ((400 <=? status_code r) && (status_code r <? 600));
    [discriminate | ].
  destruct (json r) as [data | ]; [ | discriminate].
  destruct (is_dict data && dict_has "error" data) eqn:E; [discriminate | ].
  intros H. inversion H; subst data. exact E.
Qed.

Lemma returned_payload_has_no_error_key_witness :
  sdict_mem "error" fireball_payload = false.
Proof.
  apply (returned_payload_has_no_error_key (serving (VDict fireball_payload))
           api (fireball_url api) [("limit", VInt 10)] "Fireball API"
           fireball_payload).
  reflexivity.
Defined.

(** Two parameter mappings with the same present entries make the same
    run. *)
Lemma make_api_request_clean (w : world) (self : NasaSsdCneosApi)
    (url : string) (params params' : sdict) (name : string) :
  clean params = clean params' ->
  _make_api_request w self url params name
  = _make_api_request w self url params' name.
Proof. intros H. unfold _make_api_request. rewrite H. reflexivity. Qed.

(** ** The chart steps *)

Lemma fireball_chart_run (w : world) (df : DataFrame) :
  fireball_chart w df
  = (Ok (OutTable df, geo_chart_of w df),
     if has_column "Latitude" df && has_column "Longitude" df
        && negb (plotly_accepts w (geo_of df))
     then [fireball_plot_error PlotError] else []).
Proof.
  unfold fireball_chart, geo_chart_of, geo_of, column_or_none, px,
    fireball_plot_error.
  destruct (has_column "Latitude" df && has_column "Longitude" df);
    [ | reflexivity].
  cbn -[has_column]. destruct (plotly_accepts w _); reflexivity.
Qed.

(** X11. For a fireball table that has both coordinate columns, the chart
    step asks plotly for the map over [Latitude] and [Longitude], sized by
    [Energy (kt)] and labelled by [Date/Time] where those columns are
    there. When plotly builds it the table and the map are returned and
    nothing is logged; when plotly fails the table is returned alone and
    the failure is logged once. So it is for [fetch_fireballs] on the
    table its payload normalizes to. *)
Theorem fireball_map_when_coordinates (w : world) (df : DataFrame)
    (limit : Z) (date_min energy_min : text_input) (e : pyval) :
  has_column "Latitude" df = true ->
  has_column "Longitude" df = true ->
  let fig :=
    mkFigure df
      (ScatterGeo (VStr "Latitude") (VStr "Longitude")
         (column_or_none "Energy (kt)" df) (column_or_none "Date/Time" df)
         "natural earth" "Fireball Events") in
  fireball_chart w df
  = (if plotly_accepts w fig
     then (Ok (OutTable df, Some fig), [])
     else (Ok (OutTable df, None),
           [Log ERROR [FText "Error creating fireball plot: ";
                       FExn PlotError]]))
  /\ (parsed energy_min = inr e ->
      truthy (fetched w (fireball_url api) (fireball_request limit date_min e))
      = true ->
      outcome (format_response api
                 (fetched w (fireball_url api)
                    (fireball_request limit date_min e)) "fireballs")
      = Ok (Some df) ->
      outcome (fetch_fireballs w limit date_min energy_min)
      = Ok (OutTable df, if plotly_accepts w fig then Some fig else None)).
Proof.
  intros Hlat Hlon fig.
  assert (Hchart : fireball_chart w df
                   = (if plotly_accepts w fig
                      then (Ok (OutTable df, Some fig), [])
                      else (Ok (OutTable df, None),
                            [Log ERROR [FText "Error creating fireball plot: ";
                                        FExn PlotError]]))).
  { unfold fireball_chart, px. rewrite Hlat, Hlon. cbn -[has_column].
    fold fig. destruct (plotly_accepts w fig); reflexivity. }
  split; [exact Hchart | ].
  intros Hp Ht Hf.
  destruct (fetch_fireballs_run w limit date_min energy_min e Hp) as [-> _].
  rewrite (fireballs_render_table w _ df Ht Hf), Hchart.
  destruct (plotly_accepts w fig); reflexivity.
Qed.

Lemma fireball_map_when_coordinates_witness :
  outcome (fetch_fireballs (serving (VDict fireball_payload)) 10 None None)
  = Ok (OutTable
          (mkDataFrame
             [VStr "Date/Time"; VStr "Energy (kt)"; VStr "Latitude";
              VStr "Longitude"]
             [[Some (VStr "2023-01-01T00:00:00"); Some (VStr "0.5");
               Some (VInt 10); Some (VInt (-20))]]),
        Some (mkFigure
                (mkDataFrame
                   [VStr "Date/Time"; VStr "Energy (kt)"; VStr "Latitude";
                    VStr "Longitude"]
                   [[Some (VStr "2023-01-01T00:00:00"); Some (VStr "0.5");
                     Some (VInt 10); Some (VInt (-20))]])
                (ScatterGeo (VStr "Latitude") (VStr "Longitude")
                   (Some (VStr "Energy (kt)")) (Some (VStr "Date/Time"))
                   "natural earth" "Fireball Events"))).
Proof.
  apply (fireball_map_when_coordinates (serving (VDict fireball_payload))
           (mkDataFrame
              [VStr "Date/Time"; VStr "Energy (kt)"; VStr "Latitude";
               VStr "Longitude"]
              [[Some (VStr "2023-01-01T00:00:00"); Some (VStr "0.5");
                Some (VInt 10); Some (VInt (-20))]])
           10 None None VNone); reflexivity.
Defined.

Lemma close_approach_chart_trace (w : world) (df : DataFrame) :
  trace (close_approach_chart w df)
  = match chart_of w df with
    | Some _ => []
    | None =>
        [close_approach_plot_error
           match x_axis df, y_axis df with
           | Some _, Some _ => PlotError
           | _, _ => IndexError
           end]
    end.
Proof.
  unfold close_approach_chart, chart_of, x_axis, y_axis, scatter_of,
    column_or_none, column_at, px, close_approach_plot_error.
  destruct (has_column "Nominal Distance (au)" df);
    destruct (has_column "Velocity (km/s)" df);
    destruct (nth_error (columns df) 0);
    destruct (nth_error (columns df) 1);
    cbn -[has_column];
    repeat match goal with
      | |- context [plotly_accepts ?w ?f] =>
          destruct (plotly_accepts w f); cbn -[has_column]
      end; reflexivity.
Qed.

(** X12. The chart step of [fetch_close_approaches] logs nothing when it
    returns a chart, and one error entry when it returns none: the entry
    carries the [IndexError] when an axis has no column to fall back on,
    and plotly's error otherwise. *)
Theorem close_approach_chart_log (w : world) (df : DataFrame) :
  (forall fig, chart_of w df = Some fig -> trace (close_approach_chart w df) = [])
  /\ (chart_of w df = None ->
      trace (close_approach_chart w df)
      = [Log ERROR [FText "Error creating close approach plot: ";
                    FExn (match x_axis df, y_axis df with
                          | Some _, Some _ => PlotError
                          | _, _ => IndexError
                          end)]]).
Proof.
  split.
  - intros fig H. rewrite close_approach_chart_trace, H. reflexivity.
  - intros H. rewrite close_approach_chart_trace, H. reflexivity.
Qed.

Lemma close_approach_chart_log_witness :
  trace (close_approach_chart (without_plots VNone)
           (mkDataFrame [VStr "Object"; VStr "H (mag)"]
                        [[Some (VStr "2023 AB"); Some (VStr "25.1")]]))
  = [Log ERROR [FText "Error creating close approach plot: "; FExn PlotError]].
Proof.
  apply (close_approach_chart_log (without_plots VNone)
           (mkDataFrame [VStr "Object"; VStr "H (mag)"]
                        [[Some (VStr "2023 AB"); Some (VStr "25.1")]])).
  reflexivity.
Defined.

(** X13. A close-approach table with fewer than two columns and no column
    [Velocity (km/s)] gets no chart, whatever plotly would do: looking up
    the second column raises [IndexError], which is logged, and the table
    is returned alone. *)
Theorem close_approach_chart_needs_two_columns (w : world) (df : DataFrame) :
  (List.length (columns df) < 2)%nat ->
  has_column "Velocity (km/s)" df = false ->
  close_approach_chart w df
  = (Ok (OutTable df, None),
     [Log ERROR [FText "Error creating close approach plot: ";
                 FExn IndexError]]).
Proof.
  intros Hlen Hv.
  assert (H1 : nth_error (columns df) 1 = None).
  { apply nth_error_None. lia. }
  rewrite (surjective_run (close_approach_chart w df)).
  rewrite close_approach_chart_outcome, close_approach_chart_trace.
  unfold chart_of, y_axis. rewrite Hv, H1.
  destruct (x_axis df); reflexivity.
Qed.

Lemma close_approach_chart_needs_two_columns_witness :
  close_approach_chart offline
    (mkDataFrame [VStr "Nominal Distance (au)"] [[Some (VStr "0.01")]])
  = (Ok (OutTable
           (mkDataFrame [VStr "Nominal Distance (au)"] [[Some (VStr "0.01")]]),
         None),
     [Log ERROR [FText "Error creating close approach plot: ";
                 FExn IndexError]]).
Proof.
  apply (close_approach_chart_needs_two_columns offline
           (mkDataFrame [VStr "Nominal Distance (au)"] [[Some (VStr "0.01")]])).
  - simpl. lia.
  - reflexivity.
Defined.

(** ** What the callbacks return *)

Lemma fireballs_render_outcome (w : world) (data : pyval) :
  exists r,
    outcome (fireballs_render w data) = Ok r
    /\ (r = (OutMsg no_data_message, None) /\ truthy data = false
        \/ r = (OutMsg no_fireball_message, None)
           /\ outcome (format_response api data "fireballs") = Ok None
        \/ exists df,
             r = (OutTable df, geo_chart_of w df)
             /\ outcome (format_response api data "fireballs") = Ok (Some df)
             /\ empty df = false).
Proof.
  destruct (truthy data) eqn:Ht.
  - destruct (format_response_total api data "fireballs") as [[df | ] Hf].
    + exists (OutTable df, geo_chart_of w df). split.
      * rewrite (fireballs_render_table w data df Ht Hf), fireball_chart_run.
        reflexivity.
      * right; right. exists df. split; [reflexivity | ].
        split; [exact Hf | exact (format_response_Some _ _ _ _ Hf)].
    + exists (OutMsg no_fireball_message, None). split.
      * unfold fireballs_render. rewrite Ht. simpl.
        rewrite (run_bind _ _ None Hf). reflexivity.
      * right; left. split; [reflexivity | exact Hf].
  - exists (OutMsg no_data_message, None). split.
    + unfold fireballs_render. rewrite Ht. reflexivity.
    + left. split; reflexivity.
Qed.

Lemma close_approaches_render_outcome (w : world) (data : pyval) :
  exists r,
    outcome (close_approaches_render w data) = Ok r
    /\ (r = (OutMsg no_data_message, None) /\ truthy data = false
        \/ r = (OutMsg no_close_approach_message, None)
           /\ outcome (format_response api data "close_approaches") = Ok None
        \/ exists df,
             r = (OutTable df, chart_of w df)
             /\ outcome (format_response api data "close_approaches")
                = Ok (Some df)
             /\ empty df = false).
Proof.
  destruct (truthy data) eqn:Ht.
  - destruct (format_response_total api data "close_approaches")
      as [[df | ] Hf].
    + exists (OutTable df, chart_of w df). split.
      * rewrite (close_approaches_render_table w data df Ht Hf).
        apply close_approach_chart_outcome.
      * right; right. exists df. split; [reflexivity | ].
        split; [exact Hf | exact (format_response_Some _ _ _ _ Hf)].
    + exists (OutMsg no_close_approach_message, None). split.
      * unfold close_approaches_render. rewrite Ht. simpl.
        rewrite (run_bind _ _ None Hf). reflexivity.
      * right; left. split; [reflexivity | exact Hf].
  - exists (OutMsg no_data_message, None). split.
    + unfold close_approaches_render. rewrite Ht. reflexivity.
    + left. split; reflexivity.
Qed.



(** ** Answers that are not a mapping *)

Lemma fetched_serving (v : pyval) (url : string) (params : sdict) :
  is_dict v = false -> fetched (serving v) url params = v.
Proof.
  intros H. unfold fetched, classify, serving, answering. simpl. rewrite H.
  reflexivity.
Qed.

Lemma render_not_dict (v : pyval) :
  is_dict v = false ->
  outcome (fireballs_render (serving v) v)
  = Ok (OutMsg (if truthy v then no_fireball_message else no_data_message),
        None)
  /\ outcome (close_approaches_render (serving v) v)
     = Ok (OutMsg (if truthy v then no_close_approach_message
                   else no_data_message), None).
Proof.
  intros H. unfold fireballs_render, close_approaches_render.
  destruct (truthy v); simpl; [ | split; reflexivity].
  split.
  - rewrite (run_bind _ _ None (format_response_not_dict _ v "fireballs" H)).
    reflexivity.
  - rewrite (run_bind _ _ None
               (format_response_not_dict _ v "close_approaches" H)).
    reflexivity.
Qed.



(** ** What the callbacks send *)

Lemma truthy_present (v : pyval) :
  truthy v = true -> is_not_None v && ne_empty_str v = true.
Proof. destruct v; simpl; intros H; try reflexivity; congruence. Qed.

Lemma falsy_if_true (key : string) (v : pyval) :
  truthy v = false -> if_true key v = [].
Proof. intros H. unfold if_true. rewrite H. reflexivity. Qed.

Lemma clean_fireball_params (limit : Z) (date_min energy_min : pyval) :
  clean (fireball_params (VInt limit) date_min energy_min)
  = (("limit", VInt limit)
       :: if_true "date-min" date_min ++ if_true "energy-min" energy_min)%list.
Proof.
  unfold fireball_params, if_true, clean.
  destruct (truthy date_min) eqn:Hd; destruct (truthy energy_min) eqn:He;
    cbn [sdict_set String.eqb Ascii.eqb Bool.eqb filter snd app
         is_not_None ne_empty_str andb];
    rewrite ?(truthy_present _ Hd), ?(truthy_present _ He); reflexivity.
Qed.

Lemma clean_close_approach_params (limit : Z)
    (dist_max date_min date_max h_min h_max v_inf_min v_inf_max : pyval) :
  clean (close_approach_params dist_max date_min date_max h_min h_max
           v_inf_min v_inf_max (VInt limit))
  = (("limit", VInt limit)
       :: if_present "dist-max" dist_max
       ++ if_present "date-min" date_min
       ++ if_present "date-max" date_max
       ++ if_present "h-min" h_min
       ++ if_present "h-max" h_max
       ++ if_present "v-inf-min" v_inf_min
       ++ if_present "v-inf-max" v_inf_max
       ++ [("sort", VStr "date")])%list.
Proof.
  unfold close_approach_params, if_present, clean.
  cbn [filter snd].
  destruct (is_not_None dist_max && ne_empty_str dist_max);
    destruct (is_not_None date_min && ne_empty_str date_min);
    destruct (is_not_None date_max && ne_empty_str date_max);
    destruct (is_not_None h_min && ne_empty_str h_min);
    destruct (is_not_None h_max && ne_empty_str h_max);
    destruct (is_not_None v_inf_min && ne_empty_str v_inf_min);
    destruct (is_not_None v_inf_max && ne_empty_str v_inf_max);
    reflexivity.
Qed.

(** X17. [fetch_fireballs] sends nothing when the energy does not parse, and
    otherwise one request to the fireball URL: [limit] first, then
    [date-min] with the stripped date when that is not empty, then
    [energy-min] with the number when that is not zero. *)
Theorem fireball_request_sent (w : world) (limit : Z)
    (date_min energy_min : text_input) :
  requests_of (trace (fetch_fireballs w limit date_min energy_min))
  = match parsed energy_min with
    | inl _ => []
    | inr e =>
        [("https://ssd-api.jpl.nasa.gov/fireball.api",
          (("limit", VInt limit)
             :: if_true "date-min" (strip_or_none date_min)
             ++ if_true "energy-min" e)%list)]
    end.
Proof.
  destruct (parsed energy_min) as [msg | e] eqn:E.
  - rewrite (fetch_fireballs_invalid _ _ _ _ msg E). reflexivity.
  - destruct (fetch_fireballs_run w limit date_min energy_min e E) as [_ ->].
    unfold fireball_request. rewrite clean_fireball_params. reflexivity.
Qed.

(** X18. [fetch_close_approaches] sends nothing when a numeric input does not
    parse, and otherwise one request to the close-approach URL: [limit]
    first, each filter the user gave in the order of the code, the dates
    stripped, and [sort=date] last. *)
Theorem close_approach_request_sent (w : world) (limit : Z)
    (dist_max date_min date_max h_min h_max v_inf_min v_inf_max : text_input) :
  requests_of (trace (fetch_close_approaches w limit dist_max date_min date_max
                        h_min h_max v_inf_min v_inf_max))
  = match conversions dist_max h_min h_max v_inf_min v_inf_max with
    | inl _ => []
    | inr (a, b, c, d, e) =>
        [("https://ssd-api.jpl.nasa.gov/cad.api",
          (("limit", VInt limit)
             :: if_present "dist-max" a
             ++ if_present "date-min" (strip_or_none date_min)
             ++ if_present "date-max" (strip_or_none date_max)
             ++ if_present "h-min" b
             ++ if_present "h-max" c
             ++ if_present "v-inf-min" d
             ++ if_present "v-inf-max" e
             ++ [("sort", VStr "date")])%list)]
    end.
Proof.
  destruct (conversions dist_max h_min h_max v_inf_min v_inf_max)
    as [ve | [[[[a b] c] d] e]] eqn:E.
  - rewrite (fetch_close_approaches_invalid _ _ _ _ _ _ _ _ _ ve E).
    reflexivity.
  - destruct (fetch_close_approaches_run w limit dist_max date_min date_max
                h_min h_max v_inf_min v_inf_max a b c d e E) as [_ ->].
    unfold close_approach_request. rewrite clean_close_approach_params.
    reflexivity.
Qed.

(** *** Zero *)

Lemma parsed_float (s : string) (f : spec_float) :
  py_float s = inr f -> parsed (Some s) = inr (VFloat f).
Proof.
  intros H. unfold parsed, given.
  destruct s as [ | c s]; [vm_compute in H; discriminate H | ].
  simpl. rewrite H. reflexivity.
Qed.

(** X19. A minimum energy that reads as zero is not sent: [fetch_fireballs]
    makes the request it makes when the field is left empty. In
    [fetch_close_approaches] a maximum distance that reads as zero is
    sent as it is. *)
Theorem zero_energy_not_sent (w : world) (limit : Z)
    (date_min date_max : text_input) (s : string) (negative : bool) :
  py_float s = inr (S754_zero negative) ->
  requests_of (trace (fetch_fireballs w limit date_min (Some s)))
  = requests_of (trace (fetch_fireballs w limit date_min None))
  /\ exists params,
       requests_of (trace (fetch_close_approaches w limit (Some s) date_min
                             date_max None None None None))
       = [("https://ssd-api.jpl.nasa.gov/cad.api", params)]
       /\ In ("dist-max", VFloat (S754_zero negative)) params.
Proof.
  intros H. apply parsed_float in H. split.
  - destruct (fetch_fireballs_run w limit date_min (Some s) _ H) as [_ ->].
    destruct (fetch_fireballs_run w limit date_min None VNone eq_refl)
      as [_ ->].
    unfold fireball_request. rewrite !clean_fireball_params. reflexivity.
  - assert (Hc : conversions (Some s) None None None None
                 = inr (VFloat (S754_zero negative), VNone, VNone, VNone, VNone)).
    { unfold conversions. rewrite H. reflexivity. }
    destruct (fetch_close_approaches_run w limit (Some s) date_min date_max
                None None None None _ _ _ _ _ Hc) as [_ ->].
    unfold close_approach_request. rewrite clean_close_approach_params.
    eexists. split; [reflexivity | ]. right. left. reflexivity.
Qed.

Lemma zero_energy_not_sent_witness :
  requests_of (trace (fetch_fireballs offline 10 None (Some "0")))
  = requests_of (trace (fetch_fireballs offline 10 None None))
  /\ exists params,
       requests_of (trace (fetch_close_approaches offline 10 (Some "0") None
                             None None None None None))
       = [("https://ssd-api.jpl.nasa.gov/cad.api", params)]
       /\ In ("dist-max", VFloat (S754_zero false)) params.
Proof.
  apply (zero_energy_not_sent offline 10 None None "0" false).
  vm_compute. reflexivity.
Defined.

(** *** Blank dates *)

Lemma strip_or_none_blank (s : string) :
  strip s = EmptyString ->
  strip_or_none (Some s) = VNone \/ strip_or_none (Some s) = VStr EmptyString.
Proof.
  intros H. unfold strip_or_none. destruct (given (Some s));
    [right; rewrite H; reflexivity | left; reflexivity].
Qed.

Lemma blank_if_true (key : string) (s : string) :
  strip s = EmptyString -> if_true key (strip_or_none (Some s)) = [].
Proof.
  intros H. destruct (strip_or_none_blank s H) as [-> | ->]; reflexivity.
Qed.

Lemma blank_if_present (key : string) (s : string) :
  strip s = EmptyString -> if_present key (strip_or_none (Some s)) = [].
Proof.
  intros H. destruct (strip_or_none_blank s H) as [-> | ->]; reflexivity.
Qed.

(** X20. A date that consists of white space counts as no date: with it the
    two callbacks run exactly as they do when the date is left out, the
    same request, the same log and the same result. *)
Theorem blank_date_is_no_date (w : world) (limit : Z) (s s' : string)
    (energy_min dist_max h_min h_max v_inf_min v_inf_max : text_input) :
  strip s = EmptyString ->
  strip s' = EmptyString ->
  fetch_fireballs w limit (Some s) energy_min
  = fetch_fireballs w limit None energy_min
  /\ fetch_close_approaches w limit dist_max (Some s) (Some s') h_min h_max
       v_inf_min v_inf_max
     = fetch_close_approaches w limit dist_max None None h_min h_max
         v_inf_min v_inf_max.
Proof.
  intros Hs Hs'. split.
  - destruct (parsed energy_min) as [msg | e] eqn:E.
    + rewrite !(fetch_fireballs_invalid _ _ _ _ msg E). reflexivity.
    + rewrite !(fetch_fireballs_valid _ _ _ _ e E), !get_fireballs_request.
      f_equal. apply make_api_request_clean.
      rewrite !clean_fireball_params, blank_if_true by exact Hs. reflexivity.
  - destruct (conversions dist_max h_min h_max v_inf_min v_inf_max)
      as [ve | [[[[a b] c] d] e]] eqn:E.
    + rewrite !(fetch_close_approaches_invalid _ _ _ _ _ _ _ _ _ ve E).
      reflexivity.
    + rewrite !(fetch_close_approaches_valid _ _ _ _ _ _ _ _ _ a b c d e E),
        !get_close_approaches_request.
      f_equal. apply make_api_request_clean.
      rewrite !clean_close_approach_params.
      rewrite (blank_if_present "date-min" s Hs),
        (blank_if_present "date-max" s' Hs'). reflexivity.
Qed.

Lemma blank_date_is_no_date_witness :
  fetch_fireballs offline 10 (Some "  ") (Some "0.5")
  = fetch_fireballs offline 10 None (Some "0.5")
  /\ fetch_close_approaches offline 10 None (Some "  ") (Some EmptyString)
       None None None None
     = fetch_close_approaches offline 10 None None None None None None None.
Proof.
  apply (blank_date_is_no_date offline 10 "  " EmptyString);
    [ | ]; vm_compute; reflexivity.
Defined.

(** ** From the answer of the server to the table on the screen *)



End CallbacksMore.
